(** * Breakup Recovery Squad: a model of [app.py]

    The application is one Streamlit script.  Every user interaction re-runs
    the script from its first line; the only value that survives a run is
    [st.session_state.chat_history].  The model below is a shallow embedding
    of one run of the script as a computation in a small state-and-exception
    monad.  Everything the script cannot decide by itself (the model
    provider, the agent framework, the file system primitives, the host's
    temporary directory) is a field of an environment record [Env]. *)

From Stdlib Require Import String Ascii List Bool Arith Lia.
From stdpp Require Import base option gmap strings list fin_maps.
Import ListNotations.

Local Open Scope string_scope.
Local Open Scope list_scope.

(** ** Python built-ins used by the script *)

Module Py.

(** The line feed, written [\n] in the source. *)
Definition nl : string := String "010"%char EmptyString.

(** Truth value of a [str]: only the empty string is falsy. *)
Definition truthy (s : string) : bool :=
  match s with
  | EmptyString => false
  | String _ _ => true
  end.

(** [str.isspace] on one character.  A text is modelled as the string of
    its bytes, and the characters below 128 that Python takes for white
    space are the controls 9 to 13, the separators 28 to 31 and the blank;
    white space outside that range is not recognised here. *)
Definition isspace (c : ascii) : bool :=
  let n := nat_of_ascii c in
  (Nat.leb 9 n && Nat.leb n 13) || (Nat.leb 28 n && Nat.leb n 31)
  || Nat.eqb n 32.

Fixpoint lstrip (s : string) : string :=
  match s with
  | EmptyString => EmptyString
  | String c r => if isspace c then lstrip r else s
  end.

Fixpoint rstrip (s : string) : string :=
  match s with
  | EmptyString => EmptyString
  | String c r =>
      match rstrip r with
      | EmptyString => if isspace c then EmptyString else String c EmptyString
      | r' => String c r'
      end
  end.

(** [s.strip()] *)
Definition strip (s : string) : string := rstrip (lstrip s).

(** [sep.join(parts)] *)
Fixpoint join (sep : string) (parts : list string) : string :=
  match parts with
  | [] => EmptyString
  | [p] => p
  | p :: rest => p +:+ sep +:+ join sep rest
  end.

Definition startswith_sep (s : string) : bool :=
  match s with
  | String "/"%char _ => true
  | _ => false
  end.

Fixpoint endswith_sep (s : string) : bool :=
  match s with
  | EmptyString => false
  | String c EmptyString => Ascii.eqb c "/"%char
  | String _ r => endswith_sep r
  end.

(** [os.path.join(a, b)] of [posixpath]: an absolute [b] replaces [a]; a
    separator is inserted unless [a] is empty or already ends with one. *)
Definition os_path_join (a b : string) : string :=
  if startswith_sep b then b
  else if negb (truthy a) || endswith_sep a then a +:+ b
  else a +:+ "/" +:+ b.

End Py.

(** ** Data model *)

(** Exceptions (subclasses of [Exception]) that a run can meet: the two the
    interpreter raises itself in this script, and whatever a library call
    raises. *)
Inductive Exn : Type :=
| NameError (name : string)
| AttributeError (msg : string)
| Exception (msg : string).

(** [str(e)] *)
Definition str (e : Exn) : string :=
  match e with
  | NameError n => "name '" +:+ n +:+ "' is not defined"
  | AttributeError m => m
  | Exception m => m
  end.

(** [agno.models.google.Gemini] *)
Record Gemini : Type := { id : string; api_key : string }.

(** [agno.tools.duckduckgo.DuckDuckGoTools] *)
Inductive Tool : Type := DuckDuckGoTools.

(** [agno.agent.Agent], as the keyword arguments it is built from. *)
Record Agent : Type := {
  model : Gemini;
  name : string;
  tools : list Tool;
  instructions : list string;
  markdown : bool
}.

(** An element of [uploaded_files]: [file.name] and [file.getbuffer()]. *)
Record UploadedFile : Type := { file_name : string; getbuffer : string }.

(** [agno.media.Image], built from [filepath=Path(tmp_path)]. *)
Record AgnoImage : Type := { filepath : string }.

(** One call [agent.run(message=..., images=...)].  [images] is [None] when
    the keyword is not passed. *)
Record RunCall : Type := {
  callee : Agent;
  message : string;
  images : option (list AgnoImage)
}.

(** The attachments a call carries. *)
Definition attachments (c : RunCall) : list AgnoImage :=
  match images c with
  | Some l => l
  | None => []
  end.

(** The value [run] returns; [content] is optional in the framework. *)
Record RunResponse : Type := { content : option string }.

(** A chat turn [(role, text)]; the roles are the strings ["user"] and
    ["therapist"]. *)
Definition Turn : Type := (string * string)%type.

(** A name of the script's global scope. *)
Inductive PyVar (A : Type) : Type :=
| Unbound
| Bound (v : A).
Arguments Unbound {A}.
Arguments Bound {A} v.

(** What a run puts on the page. *)
Inductive Box : Type := box_info | box_success | box_warning | box_error.

Inductive Widget : Type :=
| Title (body : string)
| Markdown (body : string)
| Header (body : string)
| Subheader (body : string)
| Image (caption : string)
| Divider
| Alert (kind : Box) (body : option string)
| ChatMessage (who : string) (body : string).

(** What the widgets return in one run. *)
Record Inputs : Type := {
  in_api_key : string;
  user_input : string;
  uploaded_files : list UploadedFile;
  button : bool;
  user_chat_input : option string
}.

(** The environment of a run. *)
Record Env : Type := {
  gettempdir : string;
  Gemini_raises : string -> string -> option Exn;
  Tools_raises : option Exn;
  Agent_raises : Agent -> option Exn;
  run_result : list RunCall -> RunCall -> Exn + RunResponse;
  open_raises : gmap string string -> string -> option Exn;
  write_raises : gmap string string -> string -> string -> option Exn;
  AgnoImage_raises : string -> option Exn
}.

(** The state a run works on. *)
Record State : Type := {
  chat_history : option (list Turn);
  disk : gmap string string;
  calls : list RunCall;
  page : list Widget;
  errors : list string
}.

(** The transcript of a session; a session that has not run the chat section
    yet has none. *)
Definition transcript (s : State) : list Turn :=
  match chat_history s with
  | Some h => h
  | None => []
  end.

Definition set_chat_history (h : list Turn) (s : State) : State :=
  {| chat_history := Some h; disk := disk s; calls := calls s;
     page := page s; errors := errors s |}.

Definition set_disk (f : gmap string string) (s : State) : State :=
  {| chat_history := chat_history s; disk := f; calls := calls s;
     page := page s; errors := errors s |}.

Definition add_call (c : RunCall) (s : State) : State :=
  {| chat_history := chat_history s; disk := disk s;
     calls := calls s ++ [c]; page := page s; errors := errors s |}.

Definition add_widget (w : Widget) (s : State) : State :=
  {| chat_history := chat_history s; disk := disk s; calls := calls s;
     page := page s ++ [w]; errors := errors s |}.

Definition add_error (m : string) (s : State) : State :=
  {| chat_history := chat_history s; disk := disk s; calls := calls s;
     page := page s; errors := errors s ++ [m] |}.

(** ** The monad of a run *)

(** A statement returns, raises an [Exception], or stops the script
    ([st.stop()], which no [except Exception] clause catches). *)
Inductive Outcome (A : Type) : Type :=
| Ret (a : A)
| Raise (e : Exn)
| Stop.
Arguments Ret {A} a.
Arguments Raise {A} e.
Arguments Stop {A}.

Definition M (A : Type) : Type := State -> Outcome A * State.

Definition ret {A : Type} (a : A) : M A := fun s => (Ret a, s).

Definition bind {A B : Type} (m : M A) (k : A -> M B) : M B :=
  fun s =>
    match m s with
    | (Ret a, s') => k a s'
    | (Raise e, s') => (Raise e, s')
    | (Stop, s') => (Stop, s')
    end.

#[export] Instance M_ret : MRet M := @ret.
#[export] Instance M_bind : MBind M := fun A B k m => bind m k.

Definition raise {A : Type} (e : Exn) : M A := fun s => (Raise e, s).

(** [try: body except Exception as e: handler e] *)
Definition try_except {A : Type} (body : M A) (handler : Exn -> M A) : M A :=
  fun s =>
    match body s with
    | (Raise e, s') => handler e s'
    | r => r
    end.

(** [for x in l: body x] *)
Fixpoint for_each {A : Type} (l : list A) (body : A -> M unit) : M unit :=
  match l with
  | [] => ret tt
  | x :: rest => bind (body x) (fun _ => for_each rest body)
  end.

(** Reading a global name. *)
Definition name_lookup {A : Type} (n : string) (v : PyVar A) : M A :=
  match v with
  | Unbound => raise (NameError n)
  | Bound x => ret x
  end.

(** *** Streamlit and logging *)

Definition emit (w : Widget) : M unit := fun s => (Ret tt, add_widget w s).

Definition st_stop {A : Type} : M A := fun s => (Stop, s).
Definition st_warning (body : option string) : M unit := emit (Alert box_warning body).
Definition st_error (body : option string) : M unit := emit (Alert box_error body).
Definition st_info (body : option string) : M unit := emit (Alert box_info body).
Definition st_success (body : option string) : M unit := emit (Alert box_success body).

Definition logger_error (m : string) : M unit := fun s => (Ret tt, add_error m s).

(** ** The script *)

Section Script.

Context (env : Env).

(** *** Calls into the libraries *)

Definition new_Gemini (i key : string) : M Gemini :=
  match Gemini_raises env i key with
  | Some e => raise e
  | None => ret {| id := i; api_key := key |}
  end.

Definition new_DuckDuckGoTools : M Tool :=
  match Tools_raises env with
  | Some e => raise e
  | None => ret DuckDuckGoTools
  end.

Definition new_Agent (a : Agent) : M Agent :=
  match Agent_raises env a with
  | Some e => raise e
  | None => ret a
  end.

Definition new_AgnoImage (path : string) : M AgnoImage :=
  match AgnoImage_raises env path with
  | Some e => raise e
  | None => ret {| filepath := path |}
  end.

(** [open(path, "wb")]: creates the file or truncates it.  The disk is
    keyed by the path the script passes, as a string: what another spelling
    of the same path holds is not in the model, and no statement below
    speaks of it. *)
Definition open_wb (path : string) : M unit :=
  fun s =>
    match open_raises env (disk s) path with
    | Some e => (Raise e, s)
    | None => (Ret tt, set_disk (<[path := EmptyString]> (disk s)) s)
    end.

(** [f.write(data)] on the file just opened at [path]. *)
Definition f_write (path data : string) : M unit :=
  fun s =>
    match write_raises env (disk s) path data with
    | Some e => (Raise e, s)
    | None => (Ret tt, set_disk (<[path := data]> (disk s)) s)
    end.

(** [agent.run(message=msg, images=imgs)].  [agent] is a Python value that
    may be [None]; the call is recorded whether it returns or raises. *)
Definition run (agent : option Agent) (msg : string)
    (imgs : option (list AgnoImage)) : M RunResponse :=
  match agent with
  | None => raise (AttributeError "'NoneType' object has no attribute 'run'")
  | Some a =>
      fun s =>
        let c := {| callee := a; message := msg; images := imgs |} in
        match run_result env (calls s) c with
        | inl e => (Raise e, add_call c s)
        | inr r => (Ret r, add_call c s)
        end
  end.

(** [text.strip()] on an optional text. *)
Definition method_strip (text : option string) : M string :=
  match text with
  | None => raise (AttributeError "'NoneType' object has no attribute 'strip'")
  | Some t => ret (Py.strip t)
  end.

(** *** [initialize_agents] *)

Definition therapist_instructions : list string :=
  [ "You are an empathetic therapist that:";
    "1. Listens with empathy and validates feelings";
    "2. Uses gentle humor to lighten the mood";
    "3. Shares relatable breakup experiences";
    "4. Offers comforting words and encouragement";
    "5. Analyzes both text and image inputs for emotional context" ].

Definition closure_instructions : list string :=
  [ "You are a closure specialist that:";
    "1. Creates emotional messages for unsent feelings";
    "2. Helps express raw, honest emotions";
    "3. Formats messages clearly with headers";
    "4. Ensures tone is heartfelt and authentic" ].

Definition routine_planner_instructions : list string :=
  [ "You are a recovery routine planner that:";
    "1. Designs 7-day recovery challenges";
    "2. Includes fun activities and self-care tasks";
    "3. Suggests social media detox strategies";
    "4. Creates empowering playlists" ].

Definition brutal_honesty_instructions : list string :=
  [ "You are a direct feedback specialist that:";
    "1. Gives raw, objective feedback about breakups";
    "2. Explains relationship failures clearly";
    "3. Uses blunt, factual language";
    "4. Provides reasons to move forward" ].

Definition Agents : Type :=
  (option Agent * option Agent * option Agent * option Agent)%type.

(** The body of the [try]. *)
Definition build_agents (key : string) : M Agents :=
  m ← new_Gemini "gemini-2.0-flash-exp" key;
  therapist_agent ← new_Agent
    {| model := m; name := "Therapist Agent"; tools := [];
       instructions := therapist_instructions; markdown := true |};
  closure_agent ← new_Agent
    {| model := m; name := "Closure Agent"; tools := [];
       instructions := closure_instructions; markdown := true |};
  routine_planner_agent ← new_Agent
    {| model := m; name := "Routine Planner Agent"; tools := [];
       instructions := routine_planner_instructions; markdown := true |};
  search ← new_DuckDuckGoTools;
  brutal_honesty_agent ← new_Agent
    {| model := m; name := "Brutal Honesty Agent"; tools := [search];
       instructions := brutal_honesty_instructions; markdown := true |};
  ret (Some therapist_agent, Some closure_agent,
       Some routine_planner_agent, Some brutal_honesty_agent).

Definition initialize_agents (key : string) : M Agents :=
  try_except (build_agents key)
    (fun e =>
       st_error (Some ("Error initializing agents: " +:+ str e));;
       ret (None, None, None, None)).

(** *** [process_images] *)

(** [os.path.join(tempfile.gettempdir(), file.name)] *)
Definition tmp_path (file : UploadedFile) : string :=
  Py.os_path_join (gettempdir env) (file_name file).

(** The body of the [try], for one file. *)
Definition stage (file : UploadedFile) (processed : list AgnoImage)
    : M (list AgnoImage) :=
  open_wb (tmp_path file);;
  f_write (tmp_path file) (getbuffer file);;
  img ← new_AgnoImage (tmp_path file);
  ret (processed ++ [img]).

(** The loop, from the value [processed] has when it reaches [files]. *)
Fixpoint process_images_from (processed : list AgnoImage)
    (files : list UploadedFile) : M (list AgnoImage) :=
  match files with
  | [] => ret processed
  | file :: rest =>
      processed' ← try_except (stage file processed)
        (fun e => logger_error ("Image error: " +:+ str e);; ret processed);
      process_images_from processed' rest
  end.

Definition process_images (files : list UploadedFile) : M (list AgnoImage) :=
  process_images_from [] files.

(** *** The page, from its first line to the credential gate

    The calls that put something on the page are modelled, each as the
    widget it adds.  The input widgets are not: what they return in the
    run is the record [Inputs].  [st.set_page_config], the layout
    ([st.columns], [st.sidebar]), the [help] texts and the spinners, which
    are gone when their block ends, are left out.  [st.image] is taken to
    display the upload it is given: where it raises on bytes it cannot
    decode, the run ends at that line, before the button and the chat.  The
    statements that need a run to get past that line with an upload are
    made of the button's handler, not of the run. *)

Definition page_top (inp : Inputs) : M unit :=
  emit (Title "💔 Breakup Recovery Squad");;
  emit (Markdown "### Your AI-powered breakup recovery team is here to help! Share your feelings and chat screenshots below.");;
  emit (Header "🔑 API Configuration");;
  emit (Markdown "---");;
  emit (Subheader "🙋 Feedback?");;
  if negb (Py.truthy (in_api_key inp)) then
    st_warning (Some "🔐 Please enter your Gemini API Key in the sidebar.");;
    st_stop
  else ret tt.

Definition input_area (inp : Inputs) : M unit :=
  emit (Subheader "📖 Share Your Feelings");;
  emit (Subheader "🖼️ Upload Chat Screenshots");;
  for_each (uploaded_files inp) (fun file => emit (Image (file_name file))).

(** *** The body of [if st.button("💝 Get Recovery Plan")] *)

(** Truth value of a list. *)
Definition nonempty {A : Type} (l : list A) : bool :=
  match l with
  | [] => false
  | _ :: _ => true
  end.

(** Truth value of an optional agent: an [Agent] object is truthy. *)
Definition is_agent (a : option Agent) : bool :=
  match a with
  | Some _ => true
  | None => false
  end.

(** The four invocations and their panels. *)
Definition results (text : string) (imgs : list AgnoImage)
    (therapist closure planner honest : option Agent) : M unit :=
  emit (Markdown "## 🤝 Your Recovery Squad Results");;
  res ← run therapist ("Analyze and comfort:" +:+ Py.nl +:+ text) (Some imgs);
  emit (Markdown "### 🤗 Emotional Support");;
  st_info (content res);;
  res ← run closure ("Help write unsent messages:" +:+ Py.nl +:+ text) (Some imgs);
  emit (Markdown "### ✍️ Closure Guidance");;
  st_success (content res);;
  res ← run planner ("Design a 7-day challenge:" +:+ Py.nl +:+ text) (Some imgs);
  emit (Markdown "### 📅 Your Recovery Plan");;
  st_warning (content res);;
  res ← run honest ("Give me the truth:" +:+ Py.nl +:+ text) (Some imgs);
  emit (Markdown "### 💪 Honest Feedback");;
  st_error (content res);;
  st_success (Some "✅ Personalized Recovery Plan Generated! Wishing you strength 💖").

(** Returns the value the name [therapist] is left bound to. *)
Definition recovery_plan (inp : Inputs) : M (option Agent) :=
  (if negb (Py.truthy (user_input inp)) && negb (nonempty (uploaded_files inp))
   then
     st_warning (Some "Please provide your feelings or upload images.");;
     st_stop
   else ret tt);;
  '(therapist, closure, planner, honest) ← initialize_agents (in_api_key inp);
  (if negb (forallb is_agent [therapist; closure; planner; honest])
   then
     st_error (Some "Initialization failed. Check your API key.");;
     st_stop
   else ret tt);;
  imgs ← process_images (uploaded_files inp);
  results (user_input inp) imgs therapist closure planner honest;;
  ret therapist.

(** *** The chat *)

(** [if "chat_history" not in st.session_state: ... = []] *)
Definition init_chat_history : M unit :=
  fun s =>
    match chat_history s with
    | None => (Ret tt, set_chat_history [] s)
    | Some _ => (Ret tt, s)
    end.

(** [st.session_state.chat_history] *)
Definition get_chat_history : M (list Turn) :=
  fun s =>
    match chat_history s with
    | Some h => (Ret h, s)
    | None =>
        (Raise (AttributeError "st.session_state has no attribute chat_history"), s)
    end.

(** The list [st.session_state.chat_history] becomes [h]. *)
Definition put_chat_history (h : list Turn) : M unit :=
  fun s => (Ret tt, set_chat_history h s).

(** [st.session_state.chat_history.append(t)] *)
Definition chat_history_append (t : Turn) : M unit :=
  h ← get_chat_history;
  put_chat_history (h ++ [t]).

(** One line of the prompt, for the turn [m]. *)
Definition prompt_line (m : Turn) : string :=
  if String.eqb (fst m) "user" then "User: " +:+ snd m
  else "Therapist: " +:+ snd m.

(** The prompt the transcript [h] is serialised to. *)
Definition chat_prompt (h : list Turn) : string :=
  Py.join Py.nl (map prompt_line h).

Definition fallback : string := "Something went wrong. Please try again.".

(** The body of the [try] of the chat handler; [therapist] is the global
    name as the run has left it when it reaches this statement. *)
Definition chat_try (therapist : PyVar (option Agent)) : M unit :=
  h ← get_chat_history;
  agent ← name_lookup "therapist" therapist;
  chat_response ← run agent (chat_prompt h) None;
  reply ← method_strip (content chat_response);
  chat_history_append ("therapist", reply).

(** The body of its [except Exception as e]. *)
Definition chat_except (e : Exn) : M unit :=
  chat_history_append ("therapist", fallback);;
  logger_error ("Chatbot error: " +:+ str e).

(** The body of [if user_chat_input:]. *)
Definition chat_handler (therapist : PyVar (option Agent))
    (text : string) : M unit :=
  chat_history_append ("user", text);;
  try_except (chat_try therapist) chat_except.

Definition display_turn (m : Turn) : M unit :=
  if String.eqb (fst m) "user" then emit (ChatMessage "🧍 You" (snd m))
  else emit (ChatMessage "🧠 Therapist" (snd m)).

Definition chat_section (inp : Inputs)
    (therapist : PyVar (option Agent)) : M unit :=
  emit Divider;;
  emit (Markdown "## 🧠 Ongoing Support Chat");;
  emit (Markdown "Chat with your personal therapist whenever you need comfort or advice.");;
  init_chat_history;;
  match user_chat_input inp with
  | Some text => if Py.truthy text then chat_handler therapist text else ret tt
  | None => ret tt
  end;;
  h ← get_chat_history;
  for_each h display_turn;;
  emit Divider;;
  emit (Markdown "<center><small>Made with ❤️ by the Breakup Recovery Squad</small></center>").

(** *** One run of the script *)

Definition script (inp : Inputs) : M unit :=
  page_top inp;;
  input_area inp;;
  therapist ← (if button inp
               then t ← recovery_plan inp; ret (Bound t)
               else ret Unbound);
  chat_section inp therapist.

(** A run starts on an empty page. *)
Definition fresh_page (s : State) : State :=
  {| chat_history := chat_history s; disk := disk s; calls := calls s;
     page := []; errors := errors s |}.

Definition run_script (inp : Inputs) (s : State) : Outcome unit * State :=
  script inp (fresh_page s).

End Script.

(** The state of a session at its first visit, on a disk [d]. *)
Definition first_visit (d : gmap string string) : State :=
  {| chat_history := None; disk := d; calls := []; page := []; errors := [] |}.

(** ** Vocabulary of the statements *)

(** The construction of the four agents for [key] returns [ags]. *)
Definition constructed (env : Env) (key : string) (ags : Agents) : Prop :=
  forall s, build_agents env key s = (Ret ags, s).

(** The construction of the four agents for [key] raises [e]. *)
Definition construction_raises (env : Env) (key : string) (e : Exn) : Prop :=
  forall s, build_agents env key s = (Raise e, s).

(** The four calls of [results], in the order of the source. *)
Definition plan_calls (text : string) (imgs : list AgnoImage)
    (therapist closure planner honest : Agent) : list RunCall :=
  [ {| callee := therapist;
       message := "Analyze and comfort:" +:+ Py.nl +:+ text;
       images := Some imgs |};
    {| callee := closure;
       message := "Help write unsent messages:" +:+ Py.nl +:+ text;
       images := Some imgs |};
    {| callee := planner;
       message := "Design a 7-day challenge:" +:+ Py.nl +:+ text;
       images := Some imgs |};
    {| callee := honest;
       message := "Give me the truth:" +:+ Py.nl +:+ text;
       images := Some imgs |} ].

(** What the provider answers when the calls [cs] are made one after the
    other, [past] being the calls made before them. *)
Fixpoint answers (env : Env) (past cs : list RunCall)
    : list (Exn + RunResponse) :=
  match cs with
  | [] => []
  | c :: rest => run_result env past c :: answers env (past ++ [c]) rest
  end.

(** The panel of the invocation number [i] (from 0) that returned [r]. *)
Definition panel (i : nat) (r : RunResponse) : list Widget :=
  match i with
  | 0 => [Markdown "### 🤗 Emotional Support"; Alert box_info (content r)]
  | 1 => [Markdown "### ✍️ Closure Guidance"; Alert box_success (content r)]
  | 2 => [Markdown "### 📅 Your Recovery Plan"; Alert box_warning (content r)]
  | _ => [Markdown "### 💪 Honest Feedback"; Alert box_error (content r)]
  end.

(** The panels of the first invocations, which returned [rs]. *)
Definition panels (rs : list RunResponse) : list Widget :=
  concat (imap panel rs).

Definition results_heading : Widget :=
  Markdown "## 🤝 Your Recovery Squad Results".

Definition results_banner : Widget :=
  Alert box_success
    (Some "✅ Personalized Recovery Plan Generated! Wishing you strength 💖").

(** The call of the chat handler, for the agent [a] and the transcript [h]
    the user's turn has been appended to. *)
Definition chat_call (a : Agent) (h : list Turn) : RunCall :=
  {| callee := a; message := chat_prompt h; images := None |}.

(** User and therapist turns alternate, a user turn first and a therapist
    turn last. *)
Fixpoint alternates (h : list Turn) : bool :=
  match h with
  | [] => true
  | u :: rest =>
      match rest with
      | [] => false
      | t :: rest' =>
          String.eqb (fst u) "user" && String.eqb (fst t) "therapist"
          && alternates rest'
      end
  end.

(** The state of a session after the runs [inps], one per interaction. *)
Definition session (env : Env) (inps : list Inputs) (s : State) : State :=
  fold_left (fun s inp => snd (run_script env inp s)) inps s.

(** The attachment of a staged file. *)
Definition attachment (env : Env) (file : UploadedFile) : AgnoImage :=
  {| filepath := tmp_path env file |}.

(** What staging may change: the disk and the error log. *)
Definition staging : relation State := fun s s' =>
  chat_history s' = chat_history s /\ calls s' = calls s /\ page s' = page s.

(** The state [s] after the calls [cs] and with the widgets [ws] added to
    the page. *)
Definition extend (s : State) (cs : list RunCall) (ws : list Widget) : State :=
  {| chat_history := chat_history s; disk := disk s; calls := calls s ++ cs;
     page := page s ++ ws; errors := errors s |}.

(** The state the chat handler leaves when it starts in [s] with the
    transcript [h]: the user's turn and the therapist's turn appended, the
    calls [cs] recorded and the lines [log] written to the error log. *)
Definition after_chat (s : State) (h : list Turn) (text reply : string)
    (cs : list RunCall) (log : list string) : State :=
  {| chat_history := Some (h ++ [("user", text); ("therapist", reply)]);
     disk := disk s; calls := calls s ++ cs; page := page s;
     errors := errors s ++ log |}.

(** What the chat handler appends as the therapist's text, the calls it
    makes and the lines it logs, when the name [therapist] is in the state
    [th], [past] are the calls made before and [h] is the transcript with
    the user's turn appended. *)
Definition chat_log (e : Exn) : list string := ["Chatbot error: " +:+ str e].

Definition chat_turn (env : Env) (th : PyVar (option Agent))
    (past : list RunCall) (h : list Turn)
    : string * list RunCall * list string :=
  match th with
  | Unbound => (fallback, [], chat_log (NameError "therapist"))
  | Bound None =>
      (fallback, [],
       chat_log (AttributeError "'NoneType' object has no attribute 'run'"))
  | Bound (Some a) =>
      match run_result env past (chat_call a h) with
      | inl e => (fallback, [chat_call a h], chat_log e)
      | inr r =>
          match content r with
          | None =>
              (fallback, [chat_call a h],
               chat_log
                 (AttributeError "'NoneType' object has no attribute 'strip'"))
          | Some reply => (Py.strip reply, [chat_call a h], [])
          end
      end
  end.

(** The widget a turn is displayed as. *)
Definition turn_widget (m : Turn) : Widget :=
  if String.eqb (fst m) "user" then ChatMessage "🧍 You" (snd m)
  else ChatMessage "🧠 Therapist" (snd m).

(** The widgets of the chat section, for the transcript [h]. *)
Definition chat_widgets (h : list Turn) : list Widget :=
  [ Divider;
    Markdown "## 🧠 Ongoing Support Chat";
    Markdown "Chat with your personal therapist whenever you need comfort or advice." ]
  ++ map turn_widget h
  ++ [ Divider;
       Markdown "<center><small>Made with ❤️ by the Breakup Recovery Squad</small></center>" ].

(** The widgets above the button. *)
Definition top_widgets : list Widget :=
  [ Title "💔 Breakup Recovery Squad";
    Markdown "### Your AI-powered breakup recovery team is here to help! Share your feelings and chat screenshots below.";
    Header "🔑 API Configuration";
    Markdown "---";
    Subheader "🙋 Feedback?" ].

Definition key_warning : Widget :=
  Alert box_warning (Some "🔐 Please enter your Gemini API Key in the sidebar.").

Definition input_widgets (files : list UploadedFile) : list Widget :=
  [ Subheader "📖 Share Your Feelings";
    Subheader "🖼️ Upload Chat Screenshots" ]
  ++ map (fun file => Image (file_name file)) files.

(** The chat message a run handles: [user_chat_input] when it is truthy. *)
Definition submitted (inp : Inputs) : option string :=
  match user_chat_input inp with
  | Some text => if Py.truthy text then Some text else None
  | None => None
  end.

(** The messages of the recovery plan. *)
Definition input_warning : Widget :=
  Alert box_warning (Some "Please provide your feelings or upload images.").

Definition construction_error (e : Exn) : Widget :=
  Alert box_error (Some ("Error initializing agents: " +:+ str e)).

Definition initialization_error : Widget :=
  Alert box_error (Some "Initialization failed. Check your API key.").

(** Nothing raises while [file] is staged, whatever the disk holds. *)
Definition stages_cleanly (env : Env) (file : UploadedFile) : Prop :=
  (forall d, open_raises env d (tmp_path env file) = None)
  /\ (forall d, write_raises env d (tmp_path env file) (getbuffer file) = None)
  /\ AgnoImage_raises env (tmp_path env file) = None.

(** The disk [d] after the files [files] were written one after the other,
    each at its staging path. *)
Definition staged_disk (env : Env) (d : gmap string string)
    (files : list UploadedFile) : gmap string string :=
  foldl (fun d file => <[tmp_path env file := getbuffer file]> d) d files.

(** The model every agent is given. *)
Definition gemini_flash (key : string) : Gemini :=
  {| id := "gemini-2.0-flash-exp"; api_key := key |}.

(** From the disk [d] to the disk [d'], no file has gone. *)
Definition keeps_files (d d' : gmap string string) : Prop :=
  forall p, is_Some (d !! p) -> is_Some (d' !! p).

(** ** Environments and inputs to evaluate the script on *)

Module Demo.

(** A provider that accepts every key but ["bad"], answers every call but
    the one numbered [fails_at] (from 0), and a disk where one path cannot
    be opened. *)
Definition env (fails_at : option nat) : Env :=
  {| gettempdir := "/tmp";
     Gemini_raises := fun _ key =>
       if String.eqb key "bad" then Some (Exception "API key not valid")
       else None;
     Tools_raises := None;
     Agent_raises := fun _ => None;
     run_result := fun past c =>
       if bool_decide (fails_at = Some (length past))
       then inl (Exception "503 Service Unavailable")
       else inr {| content := Some (" Reply of " +:+ name (callee c) +:+ " ") |};
     open_raises := fun _ path =>
       if String.eqb path "/tmp/locked.png"
       then Some (Exception "Permission denied") else None;
     write_raises := fun _ _ _ => None;
     AgnoImage_raises := fun _ => None |}.

Definition gemini : Gemini :=
  {| id := "gemini-2.0-flash-exp"; api_key := "k" |}.

Definition therapist : Agent :=
  {| model := gemini; name := "Therapist Agent"; tools := [];
     instructions := therapist_instructions; markdown := true |}.

Definition closure : Agent :=
  {| model := gemini; name := "Closure Agent"; tools := [];
     instructions := closure_instructions; markdown := true |}.

Definition planner : Agent :=
  {| model := gemini; name := "Routine Planner Agent"; tools := [];
     instructions := routine_planner_instructions; markdown := true |}.

Definition honest : Agent :=
  {| model := gemini; name := "Brutal Honesty Agent";
     tools := [DuckDuckGoTools];
     instructions := brutal_honesty_instructions; markdown := true |}.

Definition photo : UploadedFile :=
  {| file_name := "chat.png"; getbuffer := "PNG-1" |}.

Definition locked : UploadedFile :=
  {| file_name := "locked.png"; getbuffer := "PNG-2" |}.

Definition photo' : UploadedFile :=
  {| file_name := "chat.png"; getbuffer := "PNG-3" |}.

(** A click on the button, with a text and no image. *)
Definition plan_click (key : string) : Inputs :=
  {| in_api_key := key; user_input := "We broke up";
     uploaded_files := []; button := true; user_chat_input := None |}.

(** A chat message, sent in a run of its own. *)
Definition chat_message (text : string) : Inputs :=
  {| in_api_key := "k"; user_input := EmptyString; uploaded_files := [];
     button := false; user_chat_input := Some text |}.

Definition start : State := first_visit ∅.

End Demo.

(** ** Reasoning about runs *)

(** The script appends to strings it never inspects again: keep them folded. *)
#[local] Arguments String.append : simpl never.

Lemma bind_run {A B : Type} (m : M A) (k : A -> M B) (s : State) :
  (m ≫= k) s =
  match m s with
  | (Ret a, s') => k a s'
  | (Raise e, s') => (Raise e, s')
  | (Stop, s') => (Stop, s')
  end.
Proof. reflexivity. Qed.

(** *** The construction of the agents *)

(** The library constructors neither read nor write the state. *)
Lemma build_agents_state (env : Env) (key : string) (s s0 : State) :
  build_agents env key s = ((build_agents env key s0).1, s).
Proof.
  unfold build_agents, new_Gemini, new_Agent, new_DuckDuckGoTools.
  rewrite !bind_run.
  destruct (Gemini_raises env _ key); [reflexivity |]; simpl.
  rewrite !bind_run.
  destruct (Agent_raises env _); [reflexivity |]; simpl.
  rewrite !bind_run.
  destruct (Agent_raises env _); [reflexivity |]; simpl.
  rewrite !bind_run.
  destruct (Agent_raises env _); [reflexivity |]; simpl.
  rewrite !bind_run.
  destruct (Tools_raises env); [reflexivity |]; simpl.
  rewrite !bind_run.
  destruct (Agent_raises env _); reflexivity.
Qed.

Lemma build_agents_outcome (env : Env) (key : string) (s : State) :
  match (build_agents env key s).1 with
  | Ret (Some t, Some c, Some p, Some h) =>
      map name [t; c; p; h] =
        ["Therapist Agent"; "Closure Agent"; "Routine Planner Agent";
         "Brutal Honesty Agent"]
      /\ map (fun a => api_key (model a)) [t; c; p; h] = [key; key; key; key]
  | Ret _ => False
  | Raise _ => True
  | Stop => False
  end.
Proof.
  unfold build_agents, new_Gemini, new_Agent, new_DuckDuckGoTools.
  rewrite !bind_run.
  destruct (Gemini_raises env _ key); [exact I |]; simpl.
  rewrite !bind_run.
  destruct (Agent_raises env _); [exact I |]; simpl.
  rewrite !bind_run.
  destruct (Agent_raises env _); [exact I |]; simpl.
  rewrite !bind_run.
  destruct (Agent_raises env _); [exact I |]; simpl.
  rewrite !bind_run.
  destruct (Tools_raises env); [exact I |]; simpl.
  rewrite !bind_run.
  destruct (Agent_raises env _); [exact I |]; simpl.
  split; reflexivity.
Qed.

(** The construction never stops the script; it returns four agents, named
    as in the source and sharing the model built from the key, or raises. *)
Lemma build_agents_cases (env : Env) (key : string) :
  (exists t c p h,
      constructed env key (Some t, Some c, Some p, Some h)
      /\ map name [t; c; p; h] =
         ["Therapist Agent"; "Closure Agent"; "Routine Planner Agent";
          "Brutal Honesty Agent"]
      /\ map (fun a => api_key (model a)) [t; c; p; h] = [key; key; key; key])
  \/ (exists e, construction_raises env key e).
Proof.
  pose proof (build_agents_outcome env key (first_visit ∅)) as H.
  destruct (build_agents env key (first_visit ∅)).1
    as [[[[[t |] [c |]] [p |]] [h |]] | e |] eqn:E; try contradiction.
  - left. exists t, c, p, h. split; [| exact H].
    intros s. rewrite (build_agents_state env key s (first_visit ∅)), E.
    reflexivity.
  - right. exists e. intros s.
    rewrite (build_agents_state env key s (first_visit ∅)), E. reflexivity.
Qed.

(** When the construction returns, [initialize_agents] returns its agents
    and shows nothing. *)
Lemma initialize_agents_constructed (env : Env) (key : string) (ags : Agents)
    (s : State) :
  constructed env key ags -> initialize_agents env key s = (Ret ags, s).
Proof. intros H. unfold initialize_agents, try_except. rewrite H. reflexivity. Qed.

(** When it raises, [initialize_agents] shows the error and returns the four
    [None]. *)
Lemma initialize_agents_raises (env : Env) (key : string) (e : Exn)
    (s : State) :
  construction_raises env key e ->
  initialize_agents env key s =
    (Ret (None, None, None, None),
     add_widget
       (Alert box_error (Some ("Error initializing agents: " +:+ str e))) s).
Proof. intros H. unfold initialize_agents, try_except. rewrite H. reflexivity. Qed.

(** *** Staging *)

#[export] Instance staging_preorder : PreOrder staging.
Proof.
  split.
  - intros s; repeat split.
  - intros s1 s2 s3 (H1 & H2 & H3) (H4 & H5 & H6).
    repeat split; congruence.
Qed.

(** The body of the [try] either returns the list with the file's attachment
    appended, the file holding the uploaded bytes, or raises, the file being
    untouched or left empty (or complete, when the attachment is refused);
    it never stops the script and never writes to the error log. *)
Lemma stage_spec (env : Env) (file : UploadedFile) (s : State) :
  (exists s',
      (forall acc, stage env file acc s = (Ret (acc ++ [attachment env file]), s'))
      /\ staging s s' /\ errors s' = errors s
      /\ disk s' = <[tmp_path env file := getbuffer file]> (disk s))
  \/ (exists e s',
      (forall acc, stage env file acc s = (Raise e, s'))
      /\ staging s s' /\ errors s' = errors s).
Proof.
  unfold stage, open_wb, f_write, new_AgnoImage.
  destruct (open_raises env (disk s) (tmp_path env file)) as [e |] eqn:Ho.
  { right. exists e, s. split; [| split; [reflexivity | reflexivity]].
    intros acc. rewrite bind_run, Ho. reflexivity. }
  destruct (write_raises env (<[tmp_path env file := EmptyString]> (disk s))
              (tmp_path env file) (getbuffer file)) as [e |] eqn:Hw.
  { right.
    exists e, (set_disk (<[tmp_path env file := EmptyString]> (disk s)) s).
    split; [| split; [| reflexivity]].
    - intros acc. rewrite bind_run, Ho, bind_run. simpl. rewrite Hw.
      reflexivity.
    - repeat split. }
  destruct (AgnoImage_raises env (tmp_path env file)) as [e |] eqn:Hi.
  { right.
    exists e, (set_disk (<[tmp_path env file := getbuffer file]>
                 (<[tmp_path env file := EmptyString]> (disk s))) s).
    split; [| split; [| reflexivity]].
    - intros acc. rewrite bind_run, Ho, bind_run. simpl. rewrite Hw.
      rewrite bind_run. reflexivity.
    - repeat split. }
  left.
  exists (set_disk (<[tmp_path env file := getbuffer file]>
            (<[tmp_path env file := EmptyString]> (disk s))) s).
  split; [| split; [| split]].
  - intros acc. rewrite bind_run, Ho, bind_run. simpl. rewrite Hw.
    rewrite bind_run. reflexivity.
  - repeat split.
  - reflexivity.
  - simpl. apply insert_insert_eq.
Qed.

(** The loop always returns: no file makes it raise or stop.  It returns the
    list it started from followed by the attachments of some of the files, in
    their order; every file adds one attachment or one line to the error
    log. *)
Lemma process_images_from_spec (env : Env) (files : list UploadedFile) :
  forall s, exists imgs s',
    (forall acc, process_images_from env acc files s = (Ret (acc ++ imgs), s'))
    /\ staging s s'
    /\ length imgs + length (errors s') = length files + length (errors s)
    /\ imgs `sublist_of` map (attachment env) files.
Proof.
  induction files as [| file rest IH]; intros s.
  - exists [], s. split; [| split; [reflexivity | split; [reflexivity |]]].
    + intros acc. rewrite app_nil_r. reflexivity.
    + constructor.
  - destruct (stage_spec env file s)
      as [(s1 & Hrun & Hst & Herr & _) | (e & s1 & Hrun & Hst & Herr)].
    + destruct (IH s1) as (imgs & s2 & Hrest & Hst' & Hlen & Hsub).
      exists (attachment env file :: imgs), s2.
      split; [| split; [| split]].
      * intros acc. simpl. rewrite bind_run. unfold try_except.
        rewrite Hrun, Hrest, <- app_assoc. reflexivity.
      * etransitivity; eassumption.
      * simpl. rewrite <- Herr. lia.
      * simpl. constructor. exact Hsub.
    + destruct (IH (add_error ("Image error: " +:+ str e) s1))
        as (imgs & s2 & Hrest & Hst' & Hlen & Hsub).
      exists imgs, s2.
      split; [| split; [| split]].
      * intros acc. simpl. rewrite bind_run. unfold try_except.
        rewrite Hrun. rewrite bind_run. simpl. apply Hrest.
      * etransitivity; [exact Hst |].
        etransitivity; [| exact Hst'].
        repeat split.
      * simpl in *. rewrite length_app in Hlen. simpl in Hlen.
        rewrite <- Herr. lia.
      * simpl. constructor. exact Hsub.
Qed.

Lemma process_images_spec (env : Env) (files : list UploadedFile) (s : State) :
  exists imgs s',
    process_images env files s = (Ret imgs, s')
    /\ staging s s'
    /\ length imgs + length (errors s') = length files + length (errors s)
    /\ imgs `sublist_of` map (attachment env) files.
Proof.
  destruct (process_images_from_spec env files s)
    as (imgs & s' & Hrun & Hrest).
  exists imgs, s'. split; [apply (Hrun []) | exact Hrest].
Qed.

(** The loop from [acc] is the loop from the empty list, [acc] in front. *)
Lemma process_images_from_acc (env : Env) (files : list UploadedFile)
    (acc imgs : list AgnoImage) (s s' : State) :
  process_images env files s = (Ret imgs, s') ->
  process_images_from env acc files s = (Ret (acc ++ imgs), s').
Proof.
  intros H.
  destruct (process_images_from_spec env files s) as (imgs0 & s0 & Hrun & _).
  unfold process_images in H. rewrite (Hrun []) in H. simpl in H.
  injection H as <- <-. apply Hrun.
Qed.

(** The loop over [l1 ++ l2] is the loop over [l1] continued over [l2]. *)
Lemma process_images_from_app (env : Env) (l1 l2 : list UploadedFile) :
  forall acc s,
    process_images_from env acc (l1 ++ l2) s =
    match process_images_from env acc l1 s with
    | (Ret acc1, s1) => process_images_from env acc1 l2 s1
    | r => r
    end.
Proof.
  induction l1 as [| file rest IH]; intros acc s; [reflexivity |].
  simpl. rewrite !bind_run.
  destruct (try_except _ _ s) as [[acc1 | e |] s1]; [apply IH | reflexivity ..].
Qed.

(** *** The four invocations *)

Lemma extend_nil (s : State) : extend s [] [] = s.
Proof. destruct s; unfold extend; simpl. rewrite !app_nil_r. reflexivity. Qed.

Lemma add_widget_extend (w : Widget) (s : State) cs ws :
  add_widget w (extend s cs ws) = extend s cs (ws ++ [w]).
Proof. unfold add_widget, extend; simpl. rewrite <- app_assoc. reflexivity. Qed.

Lemma add_call_extend (c : RunCall) (s : State) cs ws :
  add_call c (extend s cs ws) = extend s (cs ++ [c]) ws.
Proof. unfold add_call, extend; simpl. rewrite <- app_assoc. reflexivity. Qed.

Lemma emit_extend (w : Widget) (s : State) cs ws :
  emit w (extend s cs ws) = (Ret tt, extend s cs (ws ++ [w])).
Proof. unfold emit. rewrite add_widget_extend. reflexivity. Qed.

Lemma run_extend (env : Env) (a : Agent) (msg : string) imgs (s : State) cs ws :
  run env (Some a) msg imgs (extend s cs ws) =
  let c := {| callee := a; message := msg; images := imgs |} in
  match run_result env (calls s ++ cs) c with
  | inl e => (Raise e, extend s (cs ++ [c]) ws)
  | inr r => (Ret r, extend s (cs ++ [c]) ws)
  end.
Proof.
  unfold run. simpl.
  destruct (run_result env (calls s ++ cs) _); rewrite add_call_extend;
    reflexivity.
Qed.

(** The sequence, as a function of the provider's answers: it stops at the
    first call that raises, with the panels of the calls before it. *)
Lemma results_run (env : Env) (text : string) (imgs : list AgnoImage)
    (t c p h : Agent) (s : State) :
  results env text imgs (Some t) (Some c) (Some p) (Some h) s =
  let cs := plan_calls text imgs t c p h in
  match answers env (calls s) cs with
  | inl e :: _ => (Raise e, extend s (take 1 cs) [results_heading])
  | inr r1 :: inl e :: _ =>
      (Raise e, extend s (take 2 cs) (results_heading :: panels [r1]))
  | inr r1 :: inr r2 :: inl e :: _ =>
      (Raise e, extend s (take 3 cs) (results_heading :: panels [r1; r2]))
  | inr r1 :: inr r2 :: inr r3 :: inl e :: _ =>
      (Raise e, extend s cs (results_heading :: panels [r1; r2; r3]))
  | inr r1 :: inr r2 :: inr r3 :: inr r4 :: _ =>
      (Ret tt,
       extend s cs
         (results_heading :: panels [r1; r2; r3; r4] ++ [results_banner]))
  | _ => (Stop, s)
  end.
Proof.
  unfold results, st_info, st_success, st_warning, st_error.
  unfold plan_calls, answers, panels, results_heading, results_banner.
  rewrite <- (extend_nil s) at 1.
  rewrite bind_run, emit_extend; simpl app.
  rewrite bind_run, run_extend; cbv beta iota zeta.
  rewrite app_nil_r; simpl app.
  destruct (run_result env (calls s) _) as [e | r1]; [reflexivity |].
  rewrite bind_run, emit_extend, bind_run, emit_extend; simpl app.
  rewrite bind_run, run_extend; cbv beta iota zeta.
  destruct (run_result env (calls s ++ [_]) _) as [e | r2]; [reflexivity |].
  rewrite bind_run, emit_extend, bind_run, emit_extend; simpl app.
  rewrite bind_run, run_extend; cbv beta iota zeta.
  rewrite <- ?app_assoc; simpl app.
  destruct (run_result env (calls s ++ [_; _]) _) as [e | r3]; [reflexivity |].
  rewrite bind_run, emit_extend, bind_run, emit_extend; simpl app.
  rewrite bind_run, run_extend; cbv beta iota zeta.
  rewrite <- ?app_assoc; simpl app.
  destruct (run_result env (calls s ++ [_; _; _]) _) as [e | r4];
    [reflexivity |].
  rewrite bind_run, emit_extend, bind_run, emit_extend; simpl app.
  rewrite emit_extend. reflexivity.
Qed.

(** *** The chat handler *)

(** Unfolds the monad and the statements of the script, down to the calls
    of the environment. *)
Ltac run_unfold :=
  cbv beta iota zeta delta
    [mbind M_bind bind mret M_ret ret raise try_except name_lookup emit
     st_stop st_warning st_error st_info st_success logger_error
     run method_strip chat_handler chat_try chat_except chat_history_append
     get_chat_history
     put_chat_history init_chat_history chat_call after_chat];
  simpl.

(** Two states written with the setters are equal when their fields are. *)
Ltac state_eq :=
  unfold add_error, set_chat_history, add_call, add_widget, set_disk, extend;
  simpl;
  rewrite <- ?app_assoc, ?app_nil_r;
  reflexivity.

(** The handler, as a function of what the name [therapist] is bound to and
    of the provider's answer.  It always returns. *)
Lemma chat_handler_run (env : Env) (th : PyVar (option Agent)) (text : string)
    (s : State) (h : list Turn) :
  chat_history s = Some h ->
  chat_handler env th text s =
  match th with
  | Unbound =>
      (Ret tt,
       after_chat s h text fallback []
         ["Chatbot error: " +:+ str (NameError "therapist")])
  | Bound None =>
      (Ret tt,
       after_chat s h text fallback []
         ["Chatbot error: " +:+
          str (AttributeError "'NoneType' object has no attribute 'run'")])
  | Bound (Some a) =>
      let c := chat_call a (h ++ [("user", text)]) in
      match run_result env (calls s) c with
      | inl e =>
          (Ret tt,
           after_chat s h text fallback [c] ["Chatbot error: " +:+ str e])
      | inr {| content := None |} =>
          (Ret tt,
           after_chat s h text fallback [c]
             ["Chatbot error: " +:+
              str (AttributeError "'NoneType' object has no attribute 'strip'")])
      | inr {| content := Some reply |} =>
          (Ret tt, after_chat s h text (Py.strip reply) [c] [])
      end
  end.
Proof.
  intros Hh. destruct s as [ch d cl pg er]. simpl in Hh. subst ch.
  destruct th as [| [a |]]; run_unfold.
  - state_eq.
  - destruct (run_result env cl _) as [e | [[reply |]]]; state_eq.
  - state_eq.
Qed.

Lemma chat_handler_turn (env : Env) (th : PyVar (option Agent)) (text : string)
    (s : State) (h : list Turn) :
  chat_history s = Some h ->
  chat_handler env th text s =
  (Ret tt,
   let '(reply, cs, log) := chat_turn env th (calls s) (h ++ [("user", text)]) in
   after_chat s h text reply cs log).
Proof.
  intros Hh. rewrite (chat_handler_run env th text s h Hh).
  unfold chat_turn, chat_log.
  destruct th as [| [a |]]; try reflexivity.
  cbv zeta.
  destruct (run_result env (calls s) _) as [e | [[reply |]]]; reflexivity.
Qed.

(** *** The sections of the page *)

Lemma for_each_emit {A : Type} (f : A -> Widget) (l : list A) :
  forall (s : State) cs ws,
    for_each l (fun x => emit (f x)) (extend s cs ws) =
    (Ret tt, extend s cs (ws ++ map f l)).
Proof.
  induction l as [| x l IH]; intros s cs ws; simpl.
  - rewrite app_nil_r. reflexivity.
  - unfold bind. rewrite emit_extend, IH, <- app_assoc. reflexivity.
Qed.

Lemma page_top_run (inp : Inputs) (s : State) :
  page_top inp s =
  if Py.truthy (in_api_key inp) then (Ret tt, extend s [] top_widgets)
  else (Stop, extend s [] (top_widgets ++ [key_warning])).
Proof.
  unfold page_top, st_warning.
  rewrite <- (extend_nil s) at 1.
  repeat (rewrite bind_run, emit_extend; simpl app; cbv beta iota).
  destruct (Py.truthy (in_api_key inp)); cbv beta iota delta [negb].
  - reflexivity.
  - rewrite bind_run, emit_extend. reflexivity.
Qed.

Lemma input_area_run (inp : Inputs) (s : State) :
  input_area inp s =
  (Ret tt, extend s [] (input_widgets (uploaded_files inp))).
Proof.
  unfold input_area, input_widgets.
  rewrite <- (extend_nil s) at 1.
  repeat (rewrite bind_run, emit_extend; simpl app; cbv beta iota).
  apply (for_each_emit (fun file => Image (file_name file))).
Qed.

Lemma init_chat_history_run (s : State) :
  init_chat_history s = (Ret tt, set_chat_history (transcript s) s).
Proof.
  unfold init_chat_history, transcript, set_chat_history.
  destruct s as [[h |] d cl pg er]; reflexivity.
Qed.

Lemma for_each_display (l : list Turn) :
  forall (s : State) cs ws,
    for_each l display_turn (extend s cs ws) =
    (Ret tt, extend s cs (ws ++ map turn_widget l)).
Proof.
  induction l as [| m l IH]; intros s cs ws; simpl.
  - rewrite app_nil_r. reflexivity.
  - unfold bind, display_turn, turn_widget at 1.
    destruct (String.eqb m.1 "user");
      rewrite emit_extend, IH, <- app_assoc; reflexivity.
Qed.

(** The chat section always returns.  It leaves the state the handler
    leaves, if a message was submitted, with its widgets on the page. *)
Lemma chat_section_run (env : Env) (inp : Inputs) (th : PyVar (option Agent))
    (s : State) :
  chat_section env inp th s =
  (Ret tt,
   match submitted inp with
   | Some text =>
       let '(reply, cs, log) :=
         chat_turn env th (calls s) (transcript s ++ [("user", text)]) in
       extend (after_chat s (transcript s) text reply cs log) []
         (chat_widgets
            (transcript s ++ [("user", text); ("therapist", reply)]))
   | None =>
       extend (set_chat_history (transcript s) s) []
         (chat_widgets (transcript s))
   end).
Proof.
  unfold chat_section, submitted, chat_widgets.
  rewrite <- (extend_nil s) at 1.
  repeat (rewrite bind_run, emit_extend; simpl app; cbv beta iota).
  rewrite bind_run, init_chat_history_run. cbv beta iota.
  set (s1 := set_chat_history _ _).
  assert (Hh : chat_history s1 = Some (transcript s)) by reflexivity.
  assert (Hnone :
    (get_chat_history ≫= λ h, for_each h display_turn ≫= λ _,
       emit Divider ≫= λ _,
       emit (Markdown "<center><small>Made with ❤️ by the Breakup Recovery Squad</small></center>"))
      s1 =
    (Ret tt,
     extend (set_chat_history (transcript s) s) []
       ([Divider; Markdown "## 🧠 Ongoing Support Chat";
         Markdown "Chat with your personal therapist whenever you need comfort or advice."]
        ++ map turn_widget (transcript s)
        ++ [Divider;
            Markdown "<center><small>Made with ❤️ by the Breakup Recovery Squad</small></center>"]))).
  { rewrite bind_run. unfold get_chat_history. rewrite Hh. cbv beta iota.
    replace s1 with
      (extend (set_chat_history (transcript s) s) []
         [Divider; Markdown "## 🧠 Ongoing Support Chat";
          Markdown "Chat with your personal therapist whenever you need comfort or advice."])
      by (subst s1; state_eq).
    rewrite bind_run, for_each_display. cbv beta iota.
    rewrite bind_run, emit_extend. cbv beta iota.
    rewrite emit_extend. rewrite <- !app_assoc. reflexivity. }
  destruct (user_chat_input inp) as [text |]; [| rewrite bind_run; exact Hnone].
  destruct (Py.truthy text); [| rewrite bind_run; exact Hnone].
  clear Hnone.
  rewrite bind_run, (chat_handler_turn env th text s1 (transcript s) Hh).
  cbv beta iota.
  replace (calls s1) with (calls s)
    by (subst s1; simpl; symmetry; apply app_nil_r).
  destruct (chat_turn env th (calls s) (transcript s ++ [("user", text)]))
    as [[reply cs] log].
  rewrite bind_run. unfold get_chat_history. simpl chat_history.
  cbv beta iota.
  replace (after_chat s1 (transcript s) text reply cs log) with
    (extend (after_chat s (transcript s) text reply cs log) []
       [Divider; Markdown "## 🧠 Ongoing Support Chat";
        Markdown "Chat with your personal therapist whenever you need comfort or advice."]).
  2:{ subst s1. unfold after_chat, extend, set_chat_history. simpl.
      rewrite !app_nil_r. reflexivity. }
  rewrite bind_run, for_each_display. cbv beta iota.
  rewrite bind_run, emit_extend. cbv beta iota.
  rewrite emit_extend. rewrite <- !app_assoc. reflexivity.
Qed.

(** *** The recovery plan *)

(** Without a text and without an image, the handler warns and stops. *)
Lemma recovery_plan_no_input (env : Env) (inp : Inputs) (s : State) :
  Py.truthy (user_input inp) || nonempty (uploaded_files inp) = false ->
  recovery_plan env inp s = (Stop, add_widget input_warning s).
Proof.
  intros H. apply orb_false_elim in H as [H1 H2].
  unfold recovery_plan. rewrite H1, H2. reflexivity.
Qed.

(** When the construction raises, the handler shows the two errors and
    stops. *)
Lemma recovery_plan_raises (env : Env) (inp : Inputs) (s : State) (e : Exn) :
  Py.truthy (user_input inp) || nonempty (uploaded_files inp) = true ->
  construction_raises env (in_api_key inp) e ->
  recovery_plan env inp s =
  (Stop, add_widget initialization_error (add_widget (construction_error e) s)).
Proof.
  intros H Hc. unfold recovery_plan.
  replace (negb (Py.truthy (user_input inp)) &&
           negb (nonempty (uploaded_files inp))) with false
    by (rewrite <- negb_orb, H; reflexivity).
  rewrite bind_run. cbv beta iota delta [mret M_ret ret].
  rewrite bind_run, (initialize_agents_raises env _ e s Hc).
  reflexivity.
Qed.

(** When the construction returns, the handler stages the images and runs
    the four invocations; the name [therapist] is left bound to the first
    agent if they all return. *)
Lemma recovery_plan_constructed (env : Env) (inp : Inputs) (s s1 : State)
    (t c p h : Agent) (imgs : list AgnoImage) :
  Py.truthy (user_input inp) || nonempty (uploaded_files inp) = true ->
  constructed env (in_api_key inp) (Some t, Some c, Some p, Some h) ->
  process_images env (uploaded_files inp) s = (Ret imgs, s1) ->
  recovery_plan env inp s =
  match results env (user_input inp) imgs (Some t) (Some c) (Some p) (Some h) s1
  with
  | (Ret _, s') => (Ret (Some t), s')
  | (Raise e, s') => (Raise e, s')
  | (Stop, s') => (Stop, s')
  end.
Proof.
  intros H Hc Hp. unfold recovery_plan.
  replace (negb (Py.truthy (user_input inp)) &&
           negb (nonempty (uploaded_files inp))) with false
    by (rewrite <- negb_orb, H; reflexivity).
  rewrite bind_run. cbv beta iota delta [mret M_ret ret].
  rewrite bind_run, (initialize_agents_constructed env _ _ s Hc).
  cbv beta iota. simpl forallb. cbv beta iota delta [negb].
  rewrite bind_run. cbv beta iota delta [mret M_ret ret].
  rewrite bind_run, Hp. cbv beta iota.
  rewrite bind_run.
  destruct (results env _ imgs _ _ _ _ s1) as [[[] | e |] s2]; reflexivity.
Qed.

(** The invocations change the calls and the page only, and every call they
    make carries the list of attachments they were given. *)
Lemma results_frame (env : Env) (text : string) (imgs : list AgnoImage)
    (t c p h : Agent) (s : State) :
  exists new ws,
    (results env text imgs (Some t) (Some c) (Some p) (Some h) s).2 =
      extend s new ws
    /\ Forall (fun call => images call = Some imgs) new.
Proof.
  rewrite results_run. cbv zeta.
  assert (Hall : Forall (fun call => images call = Some imgs)
                   (plan_calls text imgs t c p h))
    by (repeat constructor).
  assert (Htake : forall n, Forall (fun call => images call = Some imgs)
                   (take n (plan_calls text imgs t c p h)))
    by (intros n; apply Forall_take, Hall).
  destruct (answers env (calls s) _) as [| [e | r1] l].
  { exists [], []. split; [symmetry; apply extend_nil | constructor]. }
  { eexists _, _. split; [reflexivity | apply Htake]. }
  destruct l as [| [e | r2] l]; [| eexists _, _; split;
                                    [reflexivity | apply Htake] |].
  { exists [], []. split; [symmetry; apply extend_nil | constructor]. }
  destruct l as [| [e | r3] l]; [| eexists _, _; split;
                                    [reflexivity | apply Htake] |].
  { exists [], []. split; [symmetry; apply extend_nil | constructor]. }
  destruct l as [| [e | r4] l].
  { exists [], []. split; [symmetry; apply extend_nil | constructor]. }
  { eexists _, _. split; [reflexivity | apply Hall]. }
  eexists _, _. split; [reflexivity | apply Hall].
Qed.

(** What the handler may change, whatever its outcome: never the transcript;
    the calls it adds all carry one list of attachments, taken from the
    uploaded files; the disk is the one the staging leaves, if the handler
    gets that far. *)
Lemma recovery_plan_frame (env : Env) (inp : Inputs) (s : State) :
  let s' := (recovery_plan env inp s).2 in
  chat_history s' = chat_history s
  /\ (disk s' = disk s
      \/ disk s' = disk (process_images env (uploaded_files inp) s).2)
  /\ exists imgs new,
       imgs `sublist_of` map (attachment env) (uploaded_files inp)
       /\ calls s' = calls s ++ new
       /\ Forall (fun call => images call = Some imgs) new.
Proof.
  cbv zeta.
  assert (Hnil : exists imgs new : _,
             imgs `sublist_of` map (attachment env) (uploaded_files inp)
             /\ calls s = calls s ++ new
             /\ Forall (fun call => images call = Some imgs) new).
  { exists [], []. split; [apply sublist_nil_l |].
    split; [symmetry; apply app_nil_r | constructor]. }
  destruct (Py.truthy (user_input inp) || nonempty (uploaded_files inp))
    eqn:Hin.
  2:{ rewrite (recovery_plan_no_input env inp s Hin). simpl. auto. }
  destruct (build_agents_cases env (in_api_key inp))
    as [(t & c & p & h & Hc & _) | (e & Hc)].
  2:{ rewrite (recovery_plan_raises env inp s e Hin Hc). simpl. auto. }
  destruct (process_images_spec env (uploaded_files inp) s)
    as (imgs & s1 & Hp & (Hh & Hcalls & _) & _ & Hsub).
  rewrite (recovery_plan_constructed env inp s s1 t c p h imgs Hin Hc Hp).
  destruct (results_frame env (user_input inp) imgs t c p h s1)
    as (new & ws & Hs' & Hnew).
  rewrite Hp. simpl (_, _).2.
  assert (Hsnd :
    (match results env (user_input inp) imgs (Some t) (Some c) (Some p)
             (Some h) s1 with
     | (Ret _, s') => (Ret (Some t), s')
     | (Raise e, s') => (Raise e, s')
     | (Stop, s') => (@Stop (option Agent), s')
     end).2 = extend s1 new ws).
  { rewrite <- Hs'. destruct (results _ _ _ _ _ _ _ s1) as [[[] | e |] s2];
      reflexivity. }
  rewrite Hsnd. simpl.
  split; [exact Hh |]. split; [right; reflexivity |].
  exists imgs, new. rewrite Hcalls. auto.
Qed.

(** *** One run of the script *)

Lemma extend_extend (s : State) cs1 ws1 cs2 ws2 :
  extend (extend s cs1 ws1) cs2 ws2 = extend s (cs1 ++ cs2) (ws1 ++ ws2).
Proof. unfold extend; simpl. rewrite <- !app_assoc. reflexivity. Qed.

(** The run, section by section: the credential gate, the button, the
    chat.  The name [therapist] reaches the chat bound only through the
    button's branch. *)
Lemma script_run (env : Env) (inp : Inputs) (s : State) :
  script env inp s =
  if Py.truthy (in_api_key inp) then
    let s1 := extend s [] (top_widgets ++ input_widgets (uploaded_files inp)) in
    if button inp then
      match recovery_plan env inp s1 with
      | (Ret t, s2) => chat_section env inp (Bound t) s2
      | (Raise e, s2) => (Raise e, s2)
      | (Stop, s2) => (Stop, s2)
      end
    else chat_section env inp Unbound s1
  else (Stop, extend s [] (top_widgets ++ [key_warning])).
Proof.
  unfold script. rewrite bind_run, page_top_run.
  destruct (Py.truthy (in_api_key inp)); [| reflexivity].
  rewrite bind_run, input_area_run, extend_extend. simpl ([] ++ []).
  cbv beta iota zeta.
  destruct (button inp).
  - rewrite !bind_run.
    destruct (recovery_plan env inp _) as [[t | e |] s2]; reflexivity.
  - rewrite bind_run. reflexivity.
Qed.

(** *** Pairs of turns *)

Lemma alternates_app (h l : list Turn) :
  alternates h = true -> alternates (h ++ l) = alternates l.
Proof.
  revert l.
  assert (H : forall h : list Turn,
    (forall l, alternates h = true -> alternates (h ++ l) = alternates l)
    /\ (forall u l, alternates (u :: h) = true ->
          alternates ((u :: h) ++ l) = alternates l)).
  { clear h. induction h as [| t h [IH1 IH2]].
    - split; [reflexivity | discriminate].
    - split; [intros l; apply IH2 |].
      intros u l Hu. simpl in Hu. simpl.
      apply andb_prop in Hu as [Hu Hh]. rewrite Hu. simpl.
      apply IH1, Hh. }
  intros l. apply (H h).
Qed.

Lemma alternates_even (h : list Turn) :
  alternates h = true -> Nat.even (length h) = true.
Proof.
  assert (H : forall h : list Turn,
    (alternates h = true -> Nat.even (length h) = true)
    /\ (forall u, alternates (u :: h) = true ->
          Nat.even (length (u :: h)) = true)).
  { clear h. induction h as [| t h [IH1 IH2]].
    - split; [reflexivity | discriminate].
    - split; [apply IH2 |].
      intros u Hu. simpl in Hu. apply andb_prop in Hu as [_ Hh].
      simpl. apply IH1, Hh. }
  apply (H h).
Qed.

(** *** What the sections leave of the transcript, the calls and the disk *)

Lemma chat_turn_calls (env : Env) (th : PyVar (option Agent)) past h :
  Forall (fun call => images call = None) (chat_turn env th past h).1.2.
Proof.
  unfold chat_turn.
  destruct th as [| [a |]]; try constructor.
  destruct (run_result env past _) as [e | [[reply |]]];
    repeat constructor.
Qed.

Lemma chat_section_frame (env : Env) (inp : Inputs)
    (th : PyVar (option Agent)) (s : State) :
  let s' := (chat_section env inp th s).2 in
  disk s' = disk s
  /\ (exists new, calls s' = calls s ++ new
                  /\ Forall (fun call => images call = None) new
                  /\ (th = Unbound -> new = []))
  /\ (transcript s' = transcript s /\ submitted inp = None
      \/ exists text reply,
           submitted inp = Some text
           /\ transcript s' =
              transcript s ++ [("user", text); ("therapist", reply)]).
Proof.
  cbv zeta. rewrite chat_section_run. simpl (_, _).2.
  destruct (submitted inp) as [text |].
  - pose proof (chat_turn_calls env th (calls s)
                  (transcript s ++ [("user", text)])) as Hcalls.
    assert (Hun : th = Unbound ->
      (chat_turn env th (calls s) (transcript s ++ [("user", text)])).1.2 = [])
      by (intros ->; reflexivity).
    destruct (chat_turn env th (calls s) _) as [[reply cs] log].
    simpl in *. split; [reflexivity |]. split.
    + exists cs. rewrite app_nil_r. auto.
    + right. exists text, reply. auto.
  - simpl. split; [reflexivity |]. split.
    + exists []. rewrite !app_nil_r. repeat split. constructor.
    + left. auto.
Qed.

(** ** The chat loop (lines 184 to 198) *)

(** The body of the [try], as a function of what the name [therapist] is
    bound to and of the provider's answer. *)
Lemma chat_try_run (env : Env) (th : PyVar (option Agent)) (s : State)
    (h : list Turn) :
  chat_history s = Some h ->
  chat_try env th s =
  match th with
  | Unbound => (Raise (NameError "therapist"), s)
  | Bound None =>
      (Raise (AttributeError "'NoneType' object has no attribute 'run'"), s)
  | Bound (Some a) =>
      match run_result env (calls s) (chat_call a h) with
      | inl e => (Raise e, add_call (chat_call a h) s)
      | inr r =>
          match content r with
          | None =>
              (Raise (AttributeError "'NoneType' object has no attribute 'strip'"),
               add_call (chat_call a h) s)
          | Some reply =>
              (Ret tt,
               set_chat_history (h ++ [("therapist", Py.strip reply)])
                 (add_call (chat_call a h) s))
          end
      end
  end.
Proof.
  intros Hh. destruct s as [ch d cl pg er]. simpl in Hh. subst ch.
  destruct th as [| [a |]]; run_unfold; try reflexivity.
  destruct (run_result env cl _) as [e | [[reply |]]]; reflexivity.
Qed.

(** The prompt is the transcript, one line per turn. *)
Lemma chat_prompt_lines (h : list Turn) :
  chat_prompt h = Py.join Py.nl (map prompt_line h)
  /\ Forall (fun m =>
       (m.1 = "user" -> prompt_line m = "User: " +:+ m.2)
       /\ (m.1 = "therapist" -> prompt_line m = "Therapist: " +:+ m.2)) h.
Proof.
  split; [reflexivity |].
  apply Forall_forall. intros [role text] _. simpl.
  split; intros ->; reflexivity.
Qed.

(** X16.  With the name [therapist] bound to an agent whose call returns a
    text, the handler does what the chat is meant to do: it calls the agent with
    the prompt of the whole transcript and appends the stripped reply. *)
Lemma chat_handler_bound (env : Env) (a : Agent) (text : string) (s : State)
    (h : list Turn) (r : RunResponse) (reply : string) :
  chat_history s = Some h ->
  run_result env (calls s) (chat_call a (h ++ [("user", text)])) = inr r ->
  content r = Some reply ->
  chat_handler env (Bound (Some a)) text s =
  (Ret tt,
   after_chat s h text (Py.strip reply)
     [chat_call a (h ++ [("user", text)])] []).
Proof.
  intros Hh Hr Hc. rewrite (chat_handler_turn env _ text s h Hh).
  unfold chat_turn. rewrite Hr, Hc. reflexivity.
Qed.

(** The prompt of a transcript of three turns. *)
Example chat_prompt_three_turns :
  chat_prompt [("user", "Hello"); ("therapist", "Hi"); ("user", "I feel better")]
  = "User: Hello" +:+ Py.nl +:+ "Therapist: Hi" +:+ Py.nl
    +:+ "User: I feel better".
Proof. reflexivity. Qed.

(** Only in a run where the button's branch has run to its end does the
    handler find the name [therapist] bound: it then calls the therapist
    with the prompt and appends the stripped reply. *)
Example chat_in_the_run_of_a_click :
  let inp :=
    {| in_api_key := "k"; user_input := "We broke up"; uploaded_files := [];
       button := true; user_chat_input := Some "Hello" |} in
  let r := run_script (Demo.env None) inp Demo.start in
  r.1 = Ret tt
  /\ drop 4 (calls r.2) = [chat_call Demo.therapist [("user", "Hello")]]
  /\ message (chat_call Demo.therapist [("user", "Hello")]) = "User: Hello"
  /\ transcript r.2 =
     [("user", "Hello"); ("therapist", "Reply of Therapist Agent")].
Proof. cbv zeta. repeat split. Qed.

(** C1 (code defect).  A chat message arrives in a run of its own: the
    button is not clicked in that run, so the name [therapist], which only
    the button's branch binds, is unbound when the handler reads it.  The
    handler then never invokes the persona: the lookup raises, the [except]
    clause appends the fallback text and logs the [NameError].  The claim
    that every chat message invokes the therapist with the serialised
    transcript fails on every such run. *)
Theorem chat_message_alone_never_invokes (env : Env) (inp : Inputs)
    (s : State) (text : string) :
  Py.truthy (in_api_key inp) = true ->
  button inp = false ->
  submitted inp = Some text ->
  let r := run_script env inp s in
  r.1 = Ret tt
  /\ calls r.2 = calls s
  /\ transcript r.2 =
     transcript s ++ [("user", text); ("therapist", fallback)]
  /\ errors r.2 =
     errors s ++ ["Chatbot error: name 'therapist' is not defined"].
Proof.
  intros Hkey Hbutton Hsub. cbv zeta.
  unfold run_script. rewrite script_run, Hkey, Hbutton. cbv zeta.
  rewrite chat_section_run, Hsub.
  unfold chat_turn, chat_log, after_chat, extend, fresh_page, transcript.
  simpl. rewrite !app_nil_r. repeat split.
Qed.

(** A run on the message "Hello" alone, from the first visit. *)
Lemma chat_message_alone_demo :
  let r := run_script (Demo.env None) (Demo.chat_message "Hello") Demo.start in
  r.1 = Ret tt
  /\ calls r.2 = calls Demo.start
  /\ transcript r.2 =
     transcript Demo.start ++ [("user", "Hello"); ("therapist", fallback)]
  /\ errors r.2 =
     errors Demo.start ++ ["Chatbot error: name 'therapist' is not defined"].
Proof.
  apply (chat_message_alone_never_invokes (Demo.env None)
           (Demo.chat_message "Hello") Demo.start "Hello"); reflexivity.
Defined.

(** C4.  Whatever makes the body of the [try] raise (the call of the
    therapist, the lookup of its name, the reply without a text), the
    handler returns, the user's turn is still in the transcript and the
    therapist's turn after it is the text "Something went wrong. Please try
    again."; the error is logged. *)
Theorem chat_failure_appends_fallback (env : Env) (th : PyVar (option Agent))
    (text : string) (s : State) (h : list Turn) (e : Exn) :
  chat_history s = Some h ->
  (chat_try env th (set_chat_history (h ++ [("user", text)]) s)).1 = Raise e ->
  let r := chat_handler env th text s in
  r.1 = Ret tt
  /\ chat_history r.2 =
     Some (h ++ [("user", text);
                 ("therapist", "Something went wrong. Please try again.")])
  /\ errors r.2 = errors s ++ ["Chatbot error: " +:+ str e].
Proof.
  intros Hh Hraise. cbv zeta.
  rewrite (chat_handler_turn env th text s h Hh).
  rewrite (chat_try_run env th (set_chat_history (h ++ [("user", text)]) s)
             (h ++ [("user", text)]) eq_refl) in Hraise.
  unfold chat_turn, chat_log. simpl calls in Hraise.
  destruct th as [| [a |]]; simpl in Hraise.
  - injection Hraise as <-. repeat split.
  - destruct (run_result env (calls s) _) as [e' | [[reply |]]];
      simpl in Hraise; try discriminate;
      injection Hraise as <-; repeat split.
  - injection Hraise as <-. repeat split.
Qed.

(** The provider raises on the first call of the session. *)
Lemma chat_failure_demo :
  let s := set_chat_history [] Demo.start in
  let r := chat_handler (Demo.env (Some 0)) (Bound (Some Demo.therapist))
             "Hello" s in
  r.1 = Ret tt
  /\ chat_history r.2 =
     Some [("user", "Hello");
           ("therapist", "Something went wrong. Please try again.")]
  /\ errors r.2 = ["Chatbot error: 503 Service Unavailable"].
Proof.
  apply (chat_failure_appends_fallback (Demo.env (Some 0))
           (Bound (Some Demo.therapist)) "Hello"
           (set_chat_history [] Demo.start) []
           (Exception "503 Service Unavailable")); reflexivity.
Defined.

(** ** The recovery plan (lines 129 to 169) *)

(** The agents a construction returns are named as in the source. *)
Lemma constructed_names (env : Env) (key : string) (t c p h : Agent) :
  constructed env key (Some t, Some c, Some p, Some h) ->
  map name [t; c; p; h] =
    ["Therapist Agent"; "Closure Agent"; "Routine Planner Agent";
     "Brutal Honesty Agent"].
Proof.
  intros Hc.
  pose proof (build_agents_outcome env key (first_visit ∅)) as H.
  rewrite Hc in H. apply H.
Qed.

(** C2, as amended.  On a click with a text, agents that were constructed
    and four invocations that all return, the handler invokes the
    therapist, the closure, the planner and the honesty agent, once each
    and in this order; every message ends with the user's text and every
    call carries the list of attachments the staging returned. *)
Theorem recovery_plan_invokes_four_in_order (env : Env) (inp : Inputs)
    (s : State) (t c p h : Agent) (imgs : list AgnoImage)
    (r1 r2 r3 r4 : RunResponse) :
  Py.truthy (user_input inp) = true ->
  constructed env (in_api_key inp) (Some t, Some c, Some p, Some h) ->
  (process_images env (uploaded_files inp) s).1 = Ret imgs ->
  answers env (calls s) (plan_calls (user_input inp) imgs t c p h) =
    [inr r1; inr r2; inr r3; inr r4] ->
  let r := recovery_plan env inp s in
  r.1 = Ret (Some t)
  /\ calls r.2 =
     calls s ++
     [ {| callee := t;
          message := "Analyze and comfort:" +:+ Py.nl +:+ user_input inp;
          images := Some imgs |};
       {| callee := c;
          message := "Help write unsent messages:" +:+ Py.nl +:+ user_input inp;
          images := Some imgs |};
       {| callee := p;
          message := "Design a 7-day challenge:" +:+ Py.nl +:+ user_input inp;
          images := Some imgs |};
       {| callee := h;
          message := "Give me the truth:" +:+ Py.nl +:+ user_input inp;
          images := Some imgs |} ]
  /\ map name [t; c; p; h] =
     ["Therapist Agent"; "Closure Agent"; "Routine Planner Agent";
      "Brutal Honesty Agent"].
Proof.
  intros Htext Hc Himgs Hans. cbv zeta.
  destruct (process_images_spec env (uploaded_files inp) s)
    as (imgs' & s1 & Hp & (_ & Hcalls & _) & _).
  rewrite Hp in Himgs. simpl in Himgs. injection Himgs as ->.
  assert (Hin : Py.truthy (user_input inp) || nonempty (uploaded_files inp)
                = true) by (rewrite Htext; reflexivity).
  rewrite (recovery_plan_constructed env inp s s1 t c p h imgs Hin Hc Hp).
  rewrite results_run. cbv zeta. rewrite Hcalls, Hans. simpl.
  rewrite Hcalls. split; [reflexivity |]. split; [reflexivity |].
  exact (constructed_names env _ t c p h Hc).
Qed.

Lemma demo_constructed (fails_at : option nat) :
  constructed (Demo.env fails_at) "k"
    (Some Demo.therapist, Some Demo.closure, Some Demo.planner,
     Some Demo.honest).
Proof. intros s. reflexivity. Qed.

(** The click of [Demo.plan_click] with a provider that answers. *)
Lemma recovery_plan_demo :
  let r := recovery_plan (Demo.env None) (Demo.plan_click "k") Demo.start in
  r.1 = Ret (Some Demo.therapist)
  /\ calls r.2 =
     calls Demo.start ++
     [ {| callee := Demo.therapist;
          message := "Analyze and comfort:" +:+ Py.nl +:+ "We broke up";
          images := Some [] |};
       {| callee := Demo.closure;
          message := "Help write unsent messages:" +:+ Py.nl +:+ "We broke up";
          images := Some [] |};
       {| callee := Demo.planner;
          message := "Design a 7-day challenge:" +:+ Py.nl +:+ "We broke up";
          images := Some [] |};
       {| callee := Demo.honest;
          message := "Give me the truth:" +:+ Py.nl +:+ "We broke up";
          images := Some [] |} ]
  /\ map name [Demo.therapist; Demo.closure; Demo.planner; Demo.honest] =
     ["Therapist Agent"; "Closure Agent"; "Routine Planner Agent";
      "Brutal Honesty Agent"].
Proof.
  apply (recovery_plan_invokes_four_in_order (Demo.env None)
           (Demo.plan_click "k") Demo.start
           Demo.therapist Demo.closure Demo.planner Demo.honest []
           {| content := Some " Reply of Therapist Agent " |}
           {| content := Some " Reply of Closure Agent " |}
           {| content := Some " Reply of Routine Planner Agent " |}
           {| content := Some " Reply of Brutal Honesty Agent " |}).
  - reflexivity.
  - intros s; reflexivity.
  - reflexivity.
  - reflexivity.
Defined.

(** C2, as stated, fails: with a text and constructed agents, a provider
    that raises on the first call leaves one invocation, the therapist's,
    and the three other personas are never invoked. *)
Lemma recovery_plan_one_call_when_first_raises :
  let env := Demo.env (Some 0) in
  let inp := Demo.plan_click "k" in
  let r := recovery_plan env inp Demo.start in
  Py.truthy (user_input inp) = true
  /\ constructed env (in_api_key inp)
       (Some Demo.therapist, Some Demo.closure, Some Demo.planner,
        Some Demo.honest)
  /\ r.1 = Raise (Exception "503 Service Unavailable")
  /\ calls r.2 =
     [ {| callee := Demo.therapist;
          message := "Analyze and comfort:" +:+ Py.nl +:+ "We broke up";
          images := Some [] |} ]
  /\ ~ (exists imgs t c p h,
          calls r.2 =
          calls Demo.start ++ plan_calls (user_input inp) imgs t c p h).
Proof.
  cbv zeta. split; [reflexivity |]. split; [apply demo_constructed |].
  split; [reflexivity |]. split; [reflexivity |].
  intros (imgs & t & c & p & h & H).
  apply (f_equal (@length RunCall)) in H. discriminate H.
Qed.

(** C3.  When the construction of the agents raises for the credential,
    [initialize_agents] shows the error and returns the four [None]; no run
    of the script on that credential invokes a persona; the handler of a
    click that reaches the construction shows the construction error and
    "Initialization failed. Check your API key.", and stops the script
    there, having staged no file and invoked no persona; and so ends the
    run of a click with a text and no upload. *)
Theorem construction_failure_blocks_invocation (env : Env) (inp : Inputs)
    (s : State) (e : Exn) :
  construction_raises env (in_api_key inp) e ->
  initialize_agents env (in_api_key inp) s =
    (Ret (None, None, None, None),
     add_widget
       (Alert box_error (Some ("Error initializing agents: " +:+ str e))) s)
  /\ calls (run_script env inp s).2 = calls s
  /\ (Py.truthy (user_input inp) || nonempty (uploaded_files inp) = true ->
      recovery_plan env inp s =
      (Stop,
       extend s []
         [ Alert box_error (Some ("Error initializing agents: " +:+ str e));
           Alert box_error (Some "Initialization failed. Check your API key.") ]))
  /\ (Py.truthy (in_api_key inp) = true ->
      button inp = true ->
      Py.truthy (user_input inp) = true ->
      uploaded_files inp = [] ->
      (run_script env inp s).1 = Stop
      /\ page (run_script env inp s).2 =
         top_widgets ++ input_widgets []
         ++ [ Alert box_error (Some ("Error initializing agents: " +:+ str e));
              Alert box_error
                (Some "Initialization failed. Check your API key.") ]).
Proof.
  intros Hc. split; [apply initialize_agents_raises, Hc |].
  split; [| split].
  - unfold run_script. rewrite script_run.
    destruct (Py.truthy (in_api_key inp)); [| simpl; apply app_nil_r].
    cbv zeta.
    destruct (button inp).
    + destruct (Py.truthy (user_input inp) || nonempty (uploaded_files inp))
        eqn:Hin.
      * rewrite (recovery_plan_raises env inp _ e Hin Hc).
        simpl. apply app_nil_r.
      * rewrite (recovery_plan_no_input env inp _ Hin).
        simpl. apply app_nil_r.
    + destruct (chat_section_frame env inp Unbound
                  (extend (fresh_page s) []
                     (top_widgets ++ input_widgets (uploaded_files inp))))
        as (_ & (new & Hcalls & _ & Hnew) & _).
      rewrite Hcalls, (Hnew eq_refl). simpl. rewrite !app_nil_r. reflexivity.
  - intros Hin. rewrite (recovery_plan_raises env inp s e Hin Hc).
    f_equal. unfold add_widget, extend, construction_error,
      initialization_error. simpl.
    rewrite app_nil_r, <- app_assoc. reflexivity.
  - intros Hkey Hbutton Htext Hfiles.
    assert (Hin : Py.truthy (user_input inp) || nonempty (uploaded_files inp)
                  = true) by (rewrite Htext; reflexivity).
    unfold run_script. rewrite script_run, Hkey, Hbutton. cbv zeta.
    rewrite (recovery_plan_raises env inp _ e Hin Hc), Hfiles.
    split; [reflexivity |].
    simpl. rewrite <- ?app_assoc. reflexivity.
Qed.

(** A click with a text, no upload and the key the demo provider refuses. *)
Lemma construction_failure_demo :
  let env := Demo.env None in
  let inp := Demo.plan_click "bad" in
  let errors_shown :=
    [ Alert box_error (Some "Error initializing agents: API key not valid");
      Alert box_error (Some "Initialization failed. Check your API key.") ] in
  initialize_agents env "bad" Demo.start =
    (Ret (None, None, None, None),
     add_widget
       (Alert box_error (Some "Error initializing agents: API key not valid"))
       Demo.start)
  /\ calls (run_script env inp Demo.start).2 = []
  /\ recovery_plan env inp Demo.start = (Stop, extend Demo.start [] errors_shown)
  /\ (run_script env inp Demo.start).1 = Stop
  /\ page (run_script env inp Demo.start).2 =
     top_widgets ++ input_widgets [] ++ errors_shown.
Proof.
  destruct (construction_failure_blocks_invocation (Demo.env None)
              (Demo.plan_click "bad") Demo.start
              (Exception "API key not valid"))
    as (Hinit & Hcalls & Hplan & Hclick).
  - intros s; reflexivity.
  - split; [exact Hinit |]. split; [exact Hcalls |].
    split; [apply Hplan; reflexivity |].
    apply Hclick; reflexivity.
Defined.

(** ** The transcript (lines 178 to 198) *)

(** A run either ends before the chat section, and leaves the transcript as
    it found it, or returns from it, and has then appended the two turns of
    the message it was submitted, if any. *)
Lemma run_script_transcript (env : Env) (inp : Inputs) (s : State) :
  let r := run_script env inp s in
  (r.1 <> Ret tt /\ transcript r.2 = transcript s)
  \/ (r.1 = Ret tt
      /\ (transcript r.2 = transcript s /\ submitted inp = None
          \/ exists text reply,
               submitted inp = Some text
               /\ transcript r.2 =
                  transcript s ++ [("user", text); ("therapist", reply)])).
Proof.
  cbv zeta. unfold run_script. rewrite script_run.
  destruct (Py.truthy (in_api_key inp)).
  2:{ left. split; [discriminate | reflexivity]. }
  cbv zeta.
  set (s1 := extend (fresh_page s) [] _).
  assert (Hs1 : transcript s1 = transcript s) by reflexivity.
  assert (Hchat : forall th s2, transcript s2 = transcript s ->
    let r := chat_section env inp th s2 in
    r.1 = Ret tt
    /\ (transcript r.2 = transcript s /\ submitted inp = None
        \/ exists text reply,
             submitted inp = Some text
             /\ transcript r.2 =
                transcript s ++ [("user", text); ("therapist", reply)])).
  { intros th s2 Hs2. cbv zeta.
    destruct (chat_section_frame env inp th s2) as (_ & _ & Ht).
    rewrite Hs2 in Ht.
    split; [rewrite chat_section_run; reflexivity | exact Ht]. }
  destruct (button inp); [| right; apply Hchat, Hs1].
  destruct (recovery_plan_frame env inp s1) as (Hh & _).
  destruct (recovery_plan env inp s1) as [[t | e |] s2]; simpl in Hh.
  - right. apply Hchat. unfold transcript. rewrite Hh. exact Hs1.
  - left. split; [discriminate |].
    simpl (_, _).2. unfold transcript. rewrite Hh. exact Hs1.
  - left. split; [discriminate |].
    simpl (_, _).2. unfold transcript. rewrite Hh. exact Hs1.
Qed.

Lemma session_snoc (env : Env) (inps : list Inputs) (inp : Inputs) (s : State) :
  session env (inps ++ [inp]) s = (run_script env inp (session env inps s)).2.
Proof. unfold session. rewrite fold_left_app. reflexivity. Qed.

(** C5.  A run of the script only appends to the transcript: the transcript
    it finds is a prefix of the one it leaves, and so it is over any
    sequence of runs.  Two runs that handle the messages "Hello" and then
    "I feel better", from an empty transcript, leave the four turns in the
    order they were made. *)
Theorem transcript_append_only (env : Env) :
  (forall inp s,
      transcript s `prefix_of` transcript (run_script env inp s).2)
  /\ (forall inps s, transcript s `prefix_of` transcript (session env inps s))
  /\ (forall inp1 inp2 s,
        transcript s = [] ->
        submitted inp1 = Some "Hello" ->
        submitted inp2 = Some "I feel better" ->
        (run_script env inp1 s).1 = Ret tt ->
        (run_script env inp2 (run_script env inp1 s).2).1 = Ret tt ->
        exists reply1 reply2,
          transcript (session env [inp1; inp2] s) =
          [("user", "Hello"); ("therapist", reply1);
           ("user", "I feel better"); ("therapist", reply2)]).
Proof.
  assert (Hone : forall inp s,
            transcript s `prefix_of` transcript (run_script env inp s).2).
  { intros inp s.
    destruct (run_script_transcript env inp s)
      as [[_ H] | [_ [[H _] | (text & reply & _ & H)]]]; rewrite H.
    - reflexivity.
    - reflexivity.
    - apply prefix_app_r. reflexivity. }
  split; [exact Hone |]. split.
  - intros inps s. induction inps as [| inp inps IH] using rev_ind.
    + reflexivity.
    + rewrite session_snoc. etransitivity; [exact IH | apply Hone].
  - intros inp1 inp2 s Hs H1 H2 Hr1 Hr2. simpl.
    destruct (run_script_transcript env inp1 s)
      as [[Hn _] | [_ [[_ Hnone] | (text1 & reply1 & Ht1 & Htr1)]]];
      [contradiction | congruence |].
    destruct (run_script_transcript env inp2 (run_script env inp1 s).2)
      as [[Hn _] | [_ [[_ Hnone] | (text2 & reply2 & Ht2 & Htr2)]]];
      [contradiction | congruence |].
    exists reply1, reply2. rewrite Htr2, Htr1, Hs.
    rewrite H1 in Ht1. rewrite H2 in Ht2.
    injection Ht1 as <-. injection Ht2 as <-. reflexivity.
Qed.

(** The two messages, each sent in a run of its own. *)
Lemma transcript_demo :
  exists reply1 reply2,
    transcript
      (session (Demo.env None)
         [Demo.chat_message "Hello"; Demo.chat_message "I feel better"]
         Demo.start) =
    [("user", "Hello"); ("therapist", reply1);
     ("user", "I feel better"); ("therapist", reply2)].
Proof.
  apply (proj2 (proj2 (transcript_append_only (Demo.env None))));
    reflexivity.
Defined.

(** C10.  A chat submission appends exactly two turns, the user's and then
    one therapist's, whose text is the stripped reply or the fallback,
    whether the body of the [try] returns or raises; a transcript that
    alternates user and therapist turns, a user turn first, still does after
    the handler, and its length is even. *)
Theorem chat_handler_appends_two_turns (env : Env)
    (th : PyVar (option Agent)) (text : string) (s : State) (h : list Turn) :
  chat_history s = Some h ->
  let r := chat_handler env th text s in
  exists reply,
    r.1 = Ret tt
    /\ chat_history r.2 = Some (h ++ [("user", text); ("therapist", reply)])
    /\ (reply = fallback
        \/ exists a resp c,
             th = Bound (Some a)
             /\ run_result env (calls s) (chat_call a (h ++ [("user", text)]))
                = inr resp
             /\ content resp = Some c
             /\ reply = Py.strip c)
    /\ length (transcript r.2) = length h + 2
    /\ (alternates h = true ->
        alternates (transcript r.2) = true
        /\ Nat.even (length (transcript r.2)) = true).
Proof.
  intros Hh. cbv zeta. rewrite (chat_handler_turn env th text s h Hh).
  assert (Hreply :
    let reply := (chat_turn env th (calls s) (h ++ [("user", text)])).1.1 in
    reply = fallback
    \/ exists a resp c,
         th = Bound (Some a)
         /\ run_result env (calls s) (chat_call a (h ++ [("user", text)]))
            = inr resp
         /\ content resp = Some c
         /\ reply = Py.strip c).
  { cbv zeta. unfold chat_turn.
    destruct th as [| [a |]]; [left; reflexivity | | left; reflexivity].
    destruct (run_result env (calls s) _) as [e | [[c |]]] eqn:Hr;
      [left; reflexivity | | left; reflexivity].
    right. exists a, {| content := Some c |}, c. auto. }
  destruct (chat_turn env th (calls s) _) as [[reply cs] log].
  exists reply. unfold transcript. simpl in *.
  split; [reflexivity |]. split; [reflexivity |]. split; [exact Hreply |].
  split; [rewrite length_app; reflexivity |].
  intros Halt.
  assert (Halt' : alternates (h ++ [("user", text); ("therapist", reply)])
                  = true)
    by (rewrite (alternates_app h _ Halt); reflexivity).
  split; [exact Halt' | apply alternates_even, Halt'].
Qed.

(** The second message of a session whose name [therapist] is unbound. *)
Lemma chat_handler_demo :
  let h := [("user", "Hello"); ("therapist", fallback)] in
  let s := set_chat_history h Demo.start in
  let r := chat_handler (Demo.env None) Unbound "I feel better" s in
  exists reply,
    r.1 = Ret tt
    /\ chat_history r.2 =
       Some (h ++ [("user", "I feel better"); ("therapist", reply)])
    /\ (reply = fallback
        \/ exists a resp c,
             Unbound = Bound (Some a)
             /\ run_result (Demo.env None) (calls s)
                  (chat_call a (h ++ [("user", "I feel better")])) = inr resp
             /\ content resp = Some c
             /\ reply = Py.strip c)
    /\ length (transcript r.2) = length h + 2
    /\ (alternates h = true ->
        alternates (transcript r.2) = true
        /\ Nat.even (length (transcript r.2)) = true).
Proof.
  apply (chat_handler_appends_two_turns (Demo.env None) Unbound
           "I feel better"
           (set_chat_history [("user", "Hello"); ("therapist", fallback)]
              Demo.start)
           [("user", "Hello"); ("therapist", fallback)]).
  reflexivity.
Defined.

(** X18.  Over the runs of a session, from its first visit, the transcript always
    alternates user and therapist turns and has an even length. *)
Lemma session_alternates (env : Env) (inps : list Inputs)
    (d : gmap string string) :
  alternates (transcript (session env inps (first_visit d))) = true
  /\ Nat.even (length (transcript (session env inps (first_visit d)))) = true.
Proof.
  assert (H : alternates (transcript (session env inps (first_visit d)))
              = true).
  { induction inps as [| inp inps IH] using rev_ind; [reflexivity |].
    rewrite session_snoc.
    destruct (run_script_transcript env inp (session env inps (first_visit d)))
      as [[_ Ht] | [_ [[Ht _] | (text & reply & _ & Ht)]]]; rewrite Ht.
    - exact IH.
    - exact IH.
    - rewrite (alternates_app _ _ IH). reflexivity. }
  split; [exact H | apply alternates_even, H].
Qed.

(** ** Staging of the uploaded images (lines 116 to 126) *)

(** C6.  When staging a file raises, in [l1 ++ file :: l2], the error is
    logged and the loop goes on: the list returned is made of the
    attachments of [l1] and of those of [l2], staged from the state the
    failure left, and nothing of [file]; every file of [l2] is staged or
    logged in its turn. *)
Theorem process_images_skips_failed (env : Env) (l1 l2 : list UploadedFile)
    (file : UploadedFile) (s : State) (imgs1 : list AgnoImage) (e : Exn) :
  let r1 := process_images env l1 s in
  r1.1 = Ret imgs1 ->
  (stage env file imgs1 r1.2).1 = Raise e ->
  let s1 :=
    add_error ("Image error: " +:+ str e) (stage env file imgs1 r1.2).2 in
  let r2 := process_images env l2 s1 in
  exists imgs2,
    r2.1 = Ret imgs2
    /\ process_images env (l1 ++ file :: l2) s = (Ret (imgs1 ++ imgs2), r2.2)
    /\ imgs2 `sublist_of` map (attachment env) l2
    /\ length imgs2 + length (errors r2.2) = length l2 + length (errors s1).
Proof.
  cbv zeta. intros H1 Hraise.
  destruct (process_images env l1 s) as [o1 s1] eqn:Hp1.
  simpl in H1, Hraise |- *. subst o1.
  destruct (stage env file imgs1 s1) as [o s1'] eqn:Hst.
  simpl in Hraise |- *. subst o.
  destruct (process_images_spec env l2
              (add_error ("Image error: " +:+ str e) s1'))
    as (imgs2 & s2 & Hp2 & _ & Hlen & Hsub).
  exists imgs2. rewrite Hp2. simpl.
  split; [reflexivity |]. split; [| split; [exact Hsub | exact Hlen]].
  unfold process_images. rewrite process_images_from_app.
  fold (process_images env l1). rewrite Hp1.
  simpl. rewrite bind_run. unfold try_except. rewrite Hst.
  rewrite bind_run. simpl.
  apply (process_images_from_acc env l2 imgs1 imgs2 _ s2 Hp2).
Qed.

(** Three uploads, the second of which cannot be opened. *)
Lemma process_images_demo :
  let env := Demo.env None in
  let e := Exception "Permission denied" in
  let r1 := process_images env [Demo.photo] Demo.start in
  let s1 :=
    add_error ("Image error: " +:+ str e)
      (stage env Demo.locked [attachment env Demo.photo] r1.2).2 in
  let r2 := process_images env [Demo.photo'] s1 in
  exists imgs2,
    r2.1 = Ret imgs2
    /\ process_images env ([Demo.photo] ++ Demo.locked :: [Demo.photo'])
         Demo.start = (Ret ([attachment env Demo.photo] ++ imgs2), r2.2)
    /\ imgs2 `sublist_of` map (attachment env) [Demo.photo']
    /\ length imgs2 + length (errors r2.2) =
       length [Demo.photo'] + length (errors s1).
Proof.
  apply (process_images_skips_failed (Demo.env None) [Demo.photo]
           [Demo.photo'] Demo.locked Demo.start
           [attachment (Demo.env None) Demo.photo]
           (Exception "Permission denied")).
  - reflexivity.
  - reflexivity.
Defined.

(** C7.  Without an uploaded image the staging returns the empty list and
    leaves the state, the disk with it, as it was; and in a run of the
    script no call carries an attachment and the disk is unchanged. *)
Theorem no_upload_no_attachment (env : Env) (inp : Inputs) (s : State) :
  uploaded_files inp = [] ->
  process_images env (uploaded_files inp) s = (Ret [], s)
  /\ disk (run_script env inp s).2 = disk s
  /\ exists new,
       calls (run_script env inp s).2 = calls s ++ new
       /\ Forall (fun call => attachments call = []) new.
Proof.
  intros Hfiles. split; [rewrite Hfiles; reflexivity |].
  unfold run_script. rewrite script_run.
  destruct (Py.truthy (in_api_key inp)).
  2:{ split; [reflexivity |]. exists []. simpl. rewrite !app_nil_r.
      split; [reflexivity | constructor]. }
  cbv zeta.
  set (s1 := extend (fresh_page s) [] _).
  assert (Hd1 : disk s1 = disk s) by reflexivity.
  assert (Hc1 : calls s1 = calls s) by (subst s1; simpl; apply app_nil_r).
  assert (Hchat : forall th s2 new,
    disk s2 = disk s -> calls s2 = calls s ++ new ->
    Forall (fun call => attachments call = []) new ->
    let r := chat_section env inp th s2 in
    disk r.2 = disk s
    /\ exists new', calls r.2 = calls s ++ new'
                    /\ Forall (fun call => attachments call = []) new').
  { intros th s2 new Hd Hc Hnew. cbv zeta.
    destruct (chat_section_frame env inp th s2)
      as (Hd' & (new' & Hc' & Hnone & _) & _).
    split; [congruence |].
    exists (new ++ new'). rewrite Hc', Hc, <- app_assoc.
    split; [reflexivity |]. apply Forall_app. split; [exact Hnew |].
    eapply Forall_impl; [exact Hnone |].
    intros call Hcall. unfold attachments. rewrite Hcall. reflexivity. }
  destruct (button inp).
  2:{ apply (Hchat Unbound s1 []);
        [exact Hd1 | rewrite app_nil_r; exact Hc1 | constructor]. }
  destruct (recovery_plan_frame env inp s1)
    as (_ & Hd & imgs & new & Hsub & Hc & Hnew).
  rewrite Hfiles in Hd, Hsub. simpl in Hsub.
  apply sublist_nil_r in Hsub. subst imgs.
  assert (Hd2 : disk (recovery_plan env inp s1).2 = disk s)
    by (destruct Hd as [Hd | Hd]; rewrite Hd; exact Hd1).
  assert (Hnew' : Forall (fun call => attachments call = []) new).
  { eapply Forall_impl; [exact Hnew |].
    intros call Hcall. unfold attachments. rewrite Hcall. reflexivity. }
  rewrite Hc1 in Hc.
  destruct (recovery_plan env inp s1) as [[t | e |] s2]; simpl in Hd2, Hc.
  - apply (Hchat (Bound t) s2 new Hd2 Hc Hnew').
  - simpl. split; [exact Hd2 |]. exists new. auto.
  - simpl. split; [exact Hd2 |]. exists new. auto.
Qed.

(** A click with a text and no image. *)
Lemma no_upload_demo :
  let env := Demo.env None in
  let inp := Demo.plan_click "k" in
  process_images env (uploaded_files inp) Demo.start = (Ret [], Demo.start)
  /\ disk (run_script env inp Demo.start).2 = disk Demo.start
  /\ exists new,
       calls (run_script env inp Demo.start).2 = calls Demo.start ++ new
       /\ Forall (fun call => attachments call = []) new.
Proof.
  apply (no_upload_no_attachment (Demo.env None) (Demo.plan_click "k")
           Demo.start).
  reflexivity.
Defined.





(** For a plain name and a temporary directory written without a final
    separator, the staging path is the directory, a separator, the name. *)
Lemma tmp_path_plain (env : Env) (file : UploadedFile) :
  Py.startswith_sep (file_name file) = false ->
  Py.truthy (gettempdir env) = true ->
  Py.endswith_sep (gettempdir env) = false ->
  tmp_path env file = gettempdir env +:+ "/" +:+ file_name file.
Proof.
  intros H1 H2 H3. unfold tmp_path, Py.os_path_join.
  rewrite H1, H2, H3. reflexivity.
Qed.

(** Two uploads with one name: the second overwrites the first. *)
Lemma same_name_overwrites :
  let env := Demo.env None in
  let r := process_images env [Demo.photo; Demo.photo'] Demo.start in
  r.1 = Ret [{| filepath := "/tmp/chat.png" |}; {| filepath := "/tmp/chat.png" |}]
  /\ disk r.2 !! "/tmp/chat.png" = Some (getbuffer Demo.photo').
Proof. cbv zeta. split; reflexivity. Qed.

(** ** The four invocations (lines 145 to 169) *)

(** C8.  Nothing in the sequence catches what an invocation raises: when
    the invocations before it returned [rs] and it raises [e], the sequence
    raises [e]; the calls made are those up to it, the page shows the
    heading and the panels of [rs], one per invocation that returned, and
    nothing of the invocations after it. *)
Theorem results_halt_at_first_raise (env : Env) (text : string)
    (imgs : list AgnoImage) (t c p h : Agent) (s : State)
    (rs : list RunResponse) (e : Exn) (rest : list (Exn + RunResponse)) :
  answers env (calls s) (plan_calls text imgs t c p h) =
    map inr rs ++ inl e :: rest ->
  results env text imgs (Some t) (Some c) (Some p) (Some h) s =
  (Raise e,
   extend s (take (S (length rs)) (plan_calls text imgs t c p h))
     (results_heading :: panels rs)).
Proof.
  intros Hans. rewrite results_run. cbv zeta. rewrite Hans.
  destruct rs as [| r1 [| r2 [| r3 [| r4 rs]]]]; try reflexivity.
  exfalso. apply (f_equal (@length _)) in Hans.
  simpl in Hans. rewrite length_app in Hans. simpl in Hans. lia.
Qed.

(** The planner's call, the third, raises. *)
Lemma results_halt_demo :
  let env := Demo.env (Some 2) in
  let cs := plan_calls "We broke up" [] Demo.therapist Demo.closure
              Demo.planner Demo.honest in
  let rs := [ {| content := Some " Reply of Therapist Agent " |};
              {| content := Some " Reply of Closure Agent " |} ] in
  results env "We broke up" [] (Some Demo.therapist) (Some Demo.closure)
    (Some Demo.planner) (Some Demo.honest) Demo.start =
  (Raise (Exception "503 Service Unavailable"),
   extend Demo.start (take (S (length rs)) cs)
     (results_heading :: panels rs)).
Proof.
  apply (results_halt_at_first_raise (Demo.env (Some 2)) "We broke up" []
           Demo.therapist Demo.closure Demo.planner Demo.honest Demo.start
           [ {| content := Some " Reply of Therapist Agent " |};
             {| content := Some " Reply of Closure Agent " |} ]
           (Exception "503 Service Unavailable")
           [inr {| content := Some " Reply of Brutal Honesty Agent " |}]).
  reflexivity.
Defined.

(** X17.  Whatever the outcome of the sequence, the panels on the page are
    exactly those of the leading invocations that returned.  Either the four
    invocations returned [rs]: the sequence returns and the page shows the
    heading, their four panels and the banner.  Or the invocations before
    the first that raises returned [rs]: the sequence raises what it raised
    and the page shows the heading and the panels of [rs], without the
    banner. *)
Lemma results_panels_follow_returns (env : Env) (text : string)
    (imgs : list AgnoImage) (t c p h : Agent) (s : State) :
  let r := results env text imgs (Some t) (Some c) (Some p) (Some h) s in
  let given := answers env (calls s) (plan_calls text imgs t c p h) in
  exists rs,
    (r.1 = Ret tt
     /\ given = map inr rs
     /\ page r.2 =
        page s ++ results_heading :: panels rs
        ++ [Alert box_success
              (Some "✅ Personalized Recovery Plan Generated! Wishing you strength 💖")])
    \/ (exists e rest,
          r.1 = Raise e
          /\ given = map inr rs ++ inl e :: rest
          /\ page r.2 = page s ++ results_heading :: panels rs).
Proof.
  cbv zeta. rewrite results_run. cbv zeta.
  unfold answers, plan_calls.
  destruct (run_result env (calls s) _) as [e | r1].
  { exists []. right. eexists e, _. repeat split. }
  destruct (run_result env (calls s ++ _) _) as [e | r2].
  { exists [r1]. right. eexists e, _. repeat split. }
  destruct (run_result env ((calls s ++ _) ++ _) _) as [e | r3].
  { exists [r1; r2]. right. eexists e, _. repeat split. }
  destruct (run_result env (((calls s ++ _) ++ _) ++ _) _) as [e | r4].
  { exists [r1; r2; r3]. right. eexists e, _. repeat split. }
  exists [r1; r2; r3; r4]. left. repeat split.
Qed.

(** What the handler raises, the run raises: the chat section is not
    reached and the sections after the handler are not rendered. *)
Lemma run_script_propagates (env : Env) (inp : Inputs) (s : State) (e : Exn)
    (s2 : State) :
  Py.truthy (in_api_key inp) = true ->
  button inp = true ->
  recovery_plan env inp
    (extend (fresh_page s) []
       (top_widgets ++ input_widgets (uploaded_files inp))) = (Raise e, s2) ->
  run_script env inp s = (Raise e, s2).
Proof.
  intros Hkey Hbutton Hplan. unfold run_script.
  rewrite script_run, Hkey, Hbutton. cbv zeta. rewrite Hplan. reflexivity.
Qed.


(** ** Further properties of the script *)

(** *** The gates (lines 99 to 101 and 130 to 132) *)

(** X1.  Without a credential the run shows the warning and stops at line
    101: nothing below is rendered, no agent is built, no file is staged, no
    persona is invoked, and a chat message submitted in that run is not
    added to the transcript. *)
Theorem missing_key_stops_run (env : Env) (inp : Inputs) (s : State) :
  Py.truthy (in_api_key inp) = false ->
  let r := run_script env inp s in
  r.1 = Stop
  /\ page r.2 = top_widgets ++ [key_warning]
  /\ chat_history r.2 = chat_history s
  /\ disk r.2 = disk s
  /\ calls r.2 = calls s
  /\ errors r.2 = errors s.
Proof.
  intros Hkey. cbv zeta. unfold run_script. rewrite script_run, Hkey.
  simpl. rewrite app_nil_r. repeat split.
Qed.

(** A chat message sent with the credential field empty. *)
Lemma missing_key_demo :
  let inp :=
    {| in_api_key := EmptyString; user_input := "We broke up";
       uploaded_files := [Demo.photo]; button := true;
       user_chat_input := Some "Hello" |} in
  let r := run_script (Demo.env None) inp Demo.start in
  r.1 = Stop
  /\ page r.2 = top_widgets ++ [key_warning]
  /\ chat_history r.2 = chat_history Demo.start
  /\ disk r.2 = disk Demo.start
  /\ calls r.2 = calls Demo.start
  /\ errors r.2 = errors Demo.start.
Proof.
  apply (missing_key_stops_run (Demo.env None)
           {| in_api_key := EmptyString; user_input := "We broke up";
              uploaded_files := [Demo.photo]; button := true;
              user_chat_input := Some "Hello" |} Demo.start).
  reflexivity.
Defined.

(** X2.  A click with neither a text nor an image shows the input warning
    and stops at line 132, before [initialize_agents] is called: the page
    ends with that warning alone, whatever the credential is worth, and
    nothing else changes. *)
Theorem empty_click_stops_run (env : Env) (inp : Inputs) (s : State) :
  Py.truthy (in_api_key inp) = true ->
  button inp = true ->
  Py.truthy (user_input inp) = false ->
  uploaded_files inp = [] ->
  let r := run_script env inp s in
  r.1 = Stop
  /\ page r.2 = top_widgets ++ input_widgets [] ++ [input_warning]
  /\ chat_history r.2 = chat_history s
  /\ disk r.2 = disk s
  /\ calls r.2 = calls s
  /\ errors r.2 = errors s.
Proof.
  intros Hkey Hbutton Htext Hfiles. cbv zeta.
  unfold run_script. rewrite script_run, Hkey, Hbutton. cbv zeta.
  rewrite recovery_plan_no_input by (rewrite Htext, Hfiles; reflexivity).
  rewrite Hfiles. simpl. rewrite app_nil_r. repeat split.
Qed.

(** An empty click with the key the demo provider refuses. *)
Lemma empty_click_demo :
  let inp :=
    {| in_api_key := "bad"; user_input := EmptyString; uploaded_files := [];
       button := true; user_chat_input := Some "Hello" |} in
  let r := run_script (Demo.env None) inp Demo.start in
  r.1 = Stop
  /\ page r.2 = top_widgets ++ input_widgets [] ++ [input_warning]
  /\ chat_history r.2 = chat_history Demo.start
  /\ disk r.2 = disk Demo.start
  /\ calls r.2 = calls Demo.start
  /\ errors r.2 = errors Demo.start.
Proof.
  apply (empty_click_stops_run (Demo.env None)
           {| in_api_key := "bad"; user_input := EmptyString;
              uploaded_files := []; button := true;
              user_chat_input := Some "Hello" |} Demo.start);
    reflexivity.
Defined.

(** *** [initialize_agents] (lines 21 to 83) *)

(** What the construction builds, when it returns. *)
Lemma build_agents_config (env : Env) (key : string) (s : State) :
  match (build_agents env key s).1 with
  | Ret (Some t, Some c, Some p, Some h) =>
      map model [t; c; p; h] = replicate 4 (gemini_flash key)
      /\ map tools [t; c; p; h] = [[]; []; []; [DuckDuckGoTools]]
      /\ map markdown [t; c; p; h] = replicate 4 true
  | _ => True
  end.
Proof.
  unfold build_agents, new_Gemini, new_Agent, new_DuckDuckGoTools.
  rewrite !bind_run.
  destruct (Gemini_raises env _ key); [exact I |]; simpl.
  rewrite !bind_run.
  destruct (Agent_raises env _); [exact I |]; simpl.
  rewrite !bind_run.
  destruct (Agent_raises env _); [exact I |]; simpl.
  rewrite !bind_run.
  destruct (Agent_raises env _); [exact I |]; simpl.
  rewrite !bind_run.
  destruct (Tools_raises env); [exact I |]; simpl.
  rewrite !bind_run.
  destruct (Agent_raises env _); [exact I |]; simpl.
  repeat split.
Qed.

(** X3.  [initialize_agents] never raises and never stops the script, and
    its result is all or nothing.  Either it returns four agents and shows
    nothing: they are named as in the source, they share one model,
    gemini-2.0-flash-exp with the caller's key, and the honesty agent alone
    holds the search tool.  Or it returns four [None] and has shown the
    error of the constructor that raised. *)
Theorem initialize_agents_all_or_nothing (env : Env) (key : string)
    (s : State) :
  (exists t c p h,
      initialize_agents env key s = (Ret (Some t, Some c, Some p, Some h), s)
      /\ map name [t; c; p; h] =
         ["Therapist Agent"; "Closure Agent"; "Routine Planner Agent";
          "Brutal Honesty Agent"]
      /\ map model [t; c; p; h] = replicate 4 (gemini_flash key)
      /\ map tools [t; c; p; h] = [[]; []; []; [DuckDuckGoTools]])
  \/ (exists e,
      initialize_agents env key s =
      (Ret (None, None, None, None), add_widget (construction_error e) s)).
Proof.
  destruct (build_agents_cases env key)
    as [(t & c & p & h & Hc & Hnames & _) | (e & Hc)].
  - left. exists t, c, p, h.
    split; [apply initialize_agents_constructed, Hc |].
    split; [exact Hnames |].
    pose proof (build_agents_config env key s) as Hcfg.
    rewrite Hc in Hcfg. simpl in Hcfg. tauto.
  - right. exists e. apply initialize_agents_raises, Hc.
Qed.

(** *** [process_images] (lines 116 to 126) *)

(** X4.  [process_images] always returns: no upload makes it raise or stop
    the script.  The attachments it returns are those of some of the files,
    in the order of the upload; every file adds one attachment or one line
    to the error log; and the transcript, the calls and the page are as they
    were. *)
Theorem process_images_always_returns (env : Env)
    (files : list UploadedFile) (s : State) :
  exists imgs s',
    process_images env files s = (Ret imgs, s')
    /\ imgs `sublist_of` map (attachment env) files
    /\ length imgs + length (errors s') = length files + length (errors s)
    /\ chat_history s' = chat_history s
    /\ calls s' = calls s
    /\ page s' = page s.
Proof.
  destruct (process_images_spec env files s)
    as (imgs & s' & Hp & (Hh & Hc & Hpg) & Hlen & Hsub).
  exists imgs, s'. auto 10.
Qed.

Lemma set_disk_same (s : State) : set_disk (disk s) s = s.
Proof. destruct s; reflexivity. Qed.

Lemma stage_cleanly_run (env : Env) (file : UploadedFile)
    (acc : list AgnoImage) (s : State) :
  stages_cleanly env file ->
  stage env file acc s =
  (Ret (acc ++ [attachment env file]),
   set_disk (<[tmp_path env file := getbuffer file]> (disk s)) s).
Proof.
  intros (Ho & Hw & Hi).
  unfold stage, open_wb, f_write, new_AgnoImage.
  rewrite Hi, bind_run, Ho, bind_run. simpl disk. rewrite Hw, bind_run.
  unfold set_disk, ret. simpl. rewrite insert_insert_eq. reflexivity.
Qed.

Lemma process_images_from_cleanly (env : Env) (files : list UploadedFile) :
  Forall (stages_cleanly env) files ->
  forall acc s,
    process_images_from env acc files s =
    (Ret (acc ++ map (attachment env) files),
     set_disk (staged_disk env (disk s) files) s).
Proof.
  induction 1 as [| file rest Hfile _ IH]; intros acc s.
  - simpl. rewrite app_nil_r, set_disk_same. reflexivity.
  - simpl process_images_from. rewrite bind_run. unfold try_except.
    rewrite (stage_cleanly_run env file acc s Hfile), IH.
    simpl. rewrite <- app_assoc. reflexivity.
Qed.



(** X6.  Uploads are staged under their names alone, so two files of one
    upload that have the same name collide: both attachments point to one
    path, and when the later of the two is the last file of the upload, that
    path holds its bytes, those of the earlier file being lost. *)
Theorem same_name_last_wins (env : Env) (before between : list UploadedFile)
    (f1 f2 : UploadedFile) (s : State) :
  Forall (stages_cleanly env) (before ++ f1 :: between ++ [f2]) ->
  file_name f1 = file_name f2 ->
  let r := process_images env (before ++ f1 :: between ++ [f2]) s in
  attachment env f1 = attachment env f2
  /\ r.1 = Ret (map (attachment env) before ++ attachment env f1
                :: map (attachment env) between ++ [attachment env f2])
  /\ disk r.2 !! filepath (attachment env f1) = Some (getbuffer f2).
Proof.
  intros Hfiles Hname. cbv zeta.
  assert (Hpath : tmp_path env f1 = tmp_path env f2)
    by (unfold tmp_path; rewrite Hname; reflexivity).
  unfold process_images.
  rewrite (process_images_from_cleanly env _ Hfiles). simpl (_, _).1.
  simpl (_, _).2. simpl disk. simpl app at 1.
  split; [unfold attachment; rewrite Hpath; reflexivity |].
  split.
  - rewrite map_app. simpl. rewrite map_app. reflexivity.
  - simpl filepath. rewrite Hpath.
    replace (before ++ f1 :: between ++ [f2])
      with ((before ++ f1 :: between) ++ [f2])
      by (rewrite <- app_assoc; reflexivity).
    unfold staged_disk. rewrite foldl_app. simpl.
    apply lookup_insert_eq.
Qed.

(** The two demo uploads named chat.png. *)
Lemma same_name_demo :
  let env := Demo.env None in
  let r := process_images env [Demo.photo; Demo.photo'] Demo.start in
  attachment env Demo.photo = attachment env Demo.photo'
  /\ r.1 = Ret [{| filepath := "/tmp/chat.png" |};
                {| filepath := "/tmp/chat.png" |}]
  /\ disk r.2 !! "/tmp/chat.png" = Some "PNG-3".
Proof.
  apply (same_name_last_wins (Demo.env None) [] [] Demo.photo Demo.photo'
           Demo.start).
  - repeat constructor.
  - reflexivity.
Defined.

#[export] Instance keeps_files_preorder : PreOrder keeps_files.
Proof.
  split.
  - intros d p Hp. exact Hp.
  - intros d1 d2 d3 H12 H23 p Hp. apply H23, H12, Hp.
Qed.

Lemma keeps_files_insert (d : gmap string string) (path data : string) :
  keeps_files d (<[path := data]> d).
Proof.
  intros p Hp. apply lookup_insert_is_Some.
  destruct (decide (path = p)); auto.
Qed.

(** Whatever its outcome, staging a file removes none. *)
Lemma stage_keeps_files (env : Env) (file : UploadedFile)
    (acc : list AgnoImage) (s : State) :
  keeps_files (disk s) (disk (stage env file acc s).2).
Proof.
  unfold stage, open_wb, f_write, new_AgnoImage.
  rewrite bind_run.
  destruct (open_raises env (disk s) (tmp_path env file)); [reflexivity |].
  rewrite bind_run. simpl disk.
  destruct (write_raises env _ (tmp_path env file) (getbuffer file)).
  { simpl. apply keeps_files_insert. }
  rewrite bind_run.
  destruct (AgnoImage_raises env (tmp_path env file)); simpl;
    (etransitivity; apply keeps_files_insert).
Qed.

Lemma process_images_from_keeps_files (env : Env) (files : list UploadedFile) :
  forall acc s,
    keeps_files (disk s) (disk (process_images_from env acc files s).2).
Proof.
  induction files as [| file rest IH]; intros acc s; [reflexivity |].
  simpl process_images_from. rewrite bind_run. unfold try_except.
  pose proof (stage_keeps_files env file acc s) as Hstage.
  assert (Hnever : forall s', stage env file acc s <> (Stop, s')).
  { intros s' Hstop.
    destruct (stage_spec env file s) as [(s1 & Hrun & _) | (e & s1 & Hrun & _)];
      rewrite Hrun in Hstop; discriminate. }
  destruct (stage env file acc s) as [[acc' | e |] s1];
    [| | exfalso; apply (Hnever s1); reflexivity].
  - etransitivity; [exact Hstage | apply IH].
  - rewrite bind_run. simpl.
    etransitivity; [exact Hstage | apply (IH acc (add_error _ s1))].
Qed.

(** X7.  A run never removes a file: whatever was on the disk before it,
    staged by an earlier run or not, is still there after it.  Nothing
    cleans the temporary directory. *)
Theorem run_never_removes_a_file (env : Env) (inp : Inputs) (s : State)
    (p : string) :
  is_Some (disk s !! p) -> is_Some (disk (run_script env inp s).2 !! p).
Proof.
  revert p. change (keeps_files (disk s) (disk (run_script env inp s).2)).
  unfold run_script. rewrite script_run.
  destruct (Py.truthy (in_api_key inp)); [| reflexivity].
  cbv zeta.
  set (s1 := extend (fresh_page s) [] _).
  assert (Hchat : forall th s2,
            disk (chat_section env inp th s2).2 = disk s2)
    by (intros th s2; apply (chat_section_frame env inp th s2)).
  destruct (button inp); [| rewrite Hchat; reflexivity].
  assert (Hplan : keeps_files (disk s) (disk (recovery_plan env inp s1).2)).
  { destruct (recovery_plan_frame env inp s1) as (_ & [Hd | Hd] & _);
      rewrite Hd; [reflexivity |].
    apply (process_images_from_keeps_files env (uploaded_files inp) [] s1). }
  destruct (recovery_plan env inp s1) as [[t | e |] s2]; simpl in Hplan.
  - rewrite Hchat. exact Hplan.
  - exact Hplan.
  - exact Hplan.
Qed.

(** A click that uploads chat.png where a file of that name was staged
    before. *)
Lemma run_never_removes_demo :
  let inp :=
    {| in_api_key := "k"; user_input := "We broke up";
       uploaded_files := [Demo.photo]; button := true;
       user_chat_input := None |} in
  let s := set_disk {[ "/tmp/chat.png" := "PNG-0" ]} Demo.start in
  is_Some (disk (run_script (Demo.env None) inp s).2 !! "/tmp/chat.png").
Proof.
  apply (run_never_removes_a_file (Demo.env None)
           {| in_api_key := "k"; user_input := "We broke up";
              uploaded_files := [Demo.photo]; button := true;
              user_chat_input := None |}
           (set_disk {[ "/tmp/chat.png" := "PNG-0" ]} Demo.start)
           "/tmp/chat.png").
  exists "PNG-0". reflexivity.
Defined.



(** *** The prompt of the chat (lines 189 to 191) *)

Lemma append_assoc (a b c : string) : (a +:+ b) +:+ c = a +:+ b +:+ c.
Proof.
  induction a as [| x a IH]; [reflexivity |].
  change ((String x a +:+ b) +:+ c) with (String x ((a +:+ b) +:+ c)).
  rewrite IH. reflexivity.
Qed.

Lemma join_snoc (sep : string) (parts : list string) (x : string) :
  parts <> [] ->
  Py.join sep (parts ++ [x]) = Py.join sep parts +:+ sep +:+ x.
Proof.
  induction parts as [| p parts IH]; [congruence |]. intros _.
  destruct parts as [| q parts]; [reflexivity |].
  change (Py.join sep ((p :: q :: parts) ++ [x]))
    with (p +:+ sep +:+ Py.join sep ((q :: parts) ++ [x])).
  rewrite IH by discriminate.
  change (Py.join sep (p :: q :: parts))
    with (p +:+ sep +:+ Py.join sep (q :: parts)).
  rewrite !append_assoc. reflexivity.
Qed.

Lemma chat_prompt_grows_by_a_line_aux (h : list Turn) (m : Turn) :
  h <> [] ->
  chat_prompt (h ++ [m]) = chat_prompt h +:+ Py.nl +:+ prompt_line m.
Proof.
  intros Hh. unfold chat_prompt. rewrite map_app. simpl map.
  apply join_snoc. destruct h; [congruence | discriminate].
Qed.

(** X9.  The prompt replays the whole transcript: the prompt of a
    transcript with one more turn is the prompt of the transcript, a line
    feed, and the line of the new turn. *)
Theorem chat_prompt_grows_by_a_line (h : list Turn) (m : Turn) :
  h <> [] ->
  chat_prompt (h ++ [m]) = chat_prompt h +:+ Py.nl +:+ prompt_line m.
Proof. apply chat_prompt_grows_by_a_line_aux. Qed.

Lemma chat_prompt_grows_demo :
  chat_prompt ([("user", "Hello"); ("therapist", "Hi")]
               ++ [("user", "I feel better")])
  = chat_prompt [("user", "Hello"); ("therapist", "Hi")]
    +:+ Py.nl +:+ prompt_line ("user", "I feel better").
Proof.
  apply (chat_prompt_grows_by_a_line [("user", "Hello"); ("therapist", "Hi")]
           ("user", "I feel better")).
  discriminate.
Defined.

(** X10.  The prompt does not tell the turns apart from their texts: a user
    message that holds a line feed followed by "Therapist: " is serialised
    exactly as a user turn followed by a therapist turn, so the transcript
    cannot be read back from the prompt. *)
Theorem chat_prompt_is_ambiguous (h : list Turn) (a b : string) :
  chat_prompt (h ++ [("user", a +:+ Py.nl +:+ "Therapist: " +:+ b)])
  = chat_prompt (h ++ [("user", a); ("therapist", b)]).
Proof.
  destruct h as [| m h].
  - unfold chat_prompt, prompt_line. simpl.
    rewrite !append_assoc. reflexivity.
  - replace ((m :: h) ++ [("user", a); ("therapist", b)])
      with (((m :: h) ++ [("user", a)]) ++ [("therapist", b)])
      by (rewrite <- app_assoc; reflexivity).
    rewrite !chat_prompt_grows_by_a_line_aux; try discriminate.
    unfold prompt_line. simpl. rewrite !append_assoc. reflexivity.
Qed.

(** *** The reply and its display (lines 192 to 205) *)

(** A message handled with the therapist bound. *)
Lemma chat_handler_bound_demo :
  let s := set_chat_history [] Demo.start in
  chat_handler (Demo.env None) (Bound (Some Demo.therapist)) "Hello" s =
  (Ret tt,
   after_chat s [] "Hello" (Py.strip " Reply of Therapist Agent ")
     [chat_call Demo.therapist ([] ++ [("user", "Hello")])] []).
Proof.
  apply (chat_handler_bound (Demo.env None) Demo.therapist "Hello"
           (set_chat_history [] Demo.start) []
           {| content := Some " Reply of Therapist Agent " |}
           " Reply of Therapist Agent "); reflexivity.
Defined.

Lemma chat_section_page (env : Env) (inp : Inputs)
    (th : PyVar (option Agent)) (s : State) :
  let s' := (chat_section env inp th s).2 in
  page s' = page s ++ chat_widgets (transcript s').
Proof.
  cbv zeta. rewrite chat_section_run. simpl (_, _).2.
  destruct (submitted inp) as [text |]; [| reflexivity].
  destruct (chat_turn env th (calls s) _) as [[reply cs] log]. reflexivity.
Qed.

(** X12.  A run that returns has displayed the transcript it leaves, the
    turn just appended included: its page ends with the chat section, which
    holds one chat message per turn, in the order of the transcript, a user
    turn under the name of the user and any other under the therapist's. *)
Theorem run_displays_transcript (env : Env) (inp : Inputs) (s : State) :
  (run_script env inp s).1 = Ret tt ->
  let s' := (run_script env inp s).2 in
  exists above,
    page s' =
    above
    ++ [ Divider; Markdown "## 🧠 Ongoing Support Chat";
         Markdown "Chat with your personal therapist whenever you need comfort or advice." ]
    ++ map turn_widget (transcript s')
    ++ [ Divider;
         Markdown "<center><small>Made with ❤️ by the Breakup Recovery Squad</small></center>" ].
Proof.
  cbv zeta. unfold run_script. rewrite script_run.
  destruct (Py.truthy (in_api_key inp)); [| discriminate].
  cbv zeta. set (s1 := extend (fresh_page s) [] _).
  destruct (button inp).
  - destruct (recovery_plan env inp s1) as [[t | e |] s2];
      [| discriminate ..].
    intros _. exists (page s2). apply (chat_section_page env inp (Bound t) s2).
  - intros _. exists (page s1). apply (chat_section_page env inp Unbound s1).
Qed.

Lemma run_displays_demo :
  let s' := (run_script (Demo.env None) (Demo.chat_message "Hello")
               Demo.start).2 in
  exists above,
    page s' =
    above
    ++ [ Divider; Markdown "## 🧠 Ongoing Support Chat";
         Markdown "Chat with your personal therapist whenever you need comfort or advice." ]
    ++ map turn_widget (transcript s')
    ++ [ Divider;
         Markdown "<center><small>Made with ❤️ by the Breakup Recovery Squad</small></center>" ].
Proof.
  apply (run_displays_transcript (Demo.env None) (Demo.chat_message "Hello")
           Demo.start).
  reflexivity.
Defined.

(** *** The button and the chat in one run (lines 129 to 198) *)

Lemma results_raise_run (env : Env) (text : string) (imgs : list AgnoImage)
    (t c p h : Agent) (s : State) (rs : list RunResponse) (e : Exn)
    (rest : list (Exn + RunResponse)) :
  answers env (calls s) (plan_calls text imgs t c p h) =
    map inr rs ++ inl e :: rest ->
  results env text imgs (Some t) (Some c) (Some p) (Some h) s =
  (Raise e,
   extend s (take (S (length rs)) (plan_calls text imgs t c p h))
     (results_heading :: panels rs)).
Proof.
  intros Hans. rewrite results_run. cbv zeta. rewrite Hans.
  destruct rs as [| r1 [| r2 [| r3 [| r4 rs]]]]; try reflexivity.
  exfalso. apply (f_equal (@length _)) in Hans.
  simpl in Hans. rewrite length_app in Hans. simpl in Hans. lia.
Qed.

(** X13.  An invocation that raises ends the whole run, not the plan alone.
    In the run of a click with a text and no upload, with constructed
    agents: the run raises the same exception, the page stops after the
    panels of the invocations that returned, without the chat section, and
    a chat message submitted in that run is not added to the transcript. *)
Theorem failed_invocation_ends_run (env : Env) (inp : Inputs) (s : State)
    (t c p h : Agent) (rs : list RunResponse)
    (e : Exn) (rest : list (Exn + RunResponse)) :
  Py.truthy (in_api_key inp) = true ->
  button inp = true ->
  Py.truthy (user_input inp) = true ->
  uploaded_files inp = [] ->
  constructed env (in_api_key inp) (Some t, Some c, Some p, Some h) ->
  answers env (calls s) (plan_calls (user_input inp) [] t c p h) =
    map inr rs ++ inl e :: rest ->
  let r := run_script env inp s in
  r.1 = Raise e
  /\ page r.2 =
     top_widgets ++ input_widgets [] ++ results_heading :: panels rs
  /\ transcript r.2 = transcript s
  /\ calls r.2 =
     calls s ++ take (S (length rs)) (plan_calls (user_input inp) [] t c p h).
Proof.
  cbv zeta. intros Hkey Hbutton Htext Hfiles Hc Hans.
  assert (Hin : Py.truthy (user_input inp) || nonempty (uploaded_files inp)
                = true) by (rewrite Htext; reflexivity).
  unfold run_script. rewrite script_run, Hkey, Hbutton. cbv zeta.
  set (s1 := extend (fresh_page s) [] _).
  assert (Hp : process_images env (uploaded_files inp) s1 = (Ret [], s1))
    by (rewrite Hfiles; reflexivity).
  rewrite (recovery_plan_constructed env inp s1 s1 t c p h [] Hin Hc Hp).
  assert (Hcalls : calls s1 = calls s)
    by (subst s1; simpl; apply app_nil_r).
  rewrite (results_raise_run env _ [] t c p h s1 rs e rest)
    by (rewrite Hcalls; exact Hans).
  subst s1. rewrite Hfiles. unfold transcript. simpl.
  rewrite app_nil_r, <- ?app_assoc. repeat split.
Qed.

(** A click and a chat message in one run; the closure's call raises. *)
Lemma failed_invocation_demo :
  let env := Demo.env (Some 1) in
  let inp :=
    {| in_api_key := "k"; user_input := "We broke up"; uploaded_files := [];
       button := true; user_chat_input := Some "Hello" |} in
  let rs := [ {| content := Some " Reply of Therapist Agent " |} ] in
  let r := run_script env inp Demo.start in
  r.1 = Raise (Exception "503 Service Unavailable")
  /\ page r.2 =
     top_widgets ++ input_widgets [] ++ results_heading :: panels rs
  /\ transcript r.2 = transcript Demo.start
  /\ calls r.2 =
     calls Demo.start
     ++ take (S (length rs))
          (plan_calls (user_input inp) [] Demo.therapist Demo.closure
             Demo.planner Demo.honest).
Proof.
  apply (failed_invocation_ends_run (Demo.env (Some 1))
           {| in_api_key := "k"; user_input := "We broke up";
              uploaded_files := []; button := true;
              user_chat_input := Some "Hello" |}
           Demo.start Demo.therapist Demo.closure Demo.planner Demo.honest
           [ {| content := Some " Reply of Therapist Agent " |} ]
           (Exception "503 Service Unavailable")
           [ inr {| content := Some " Reply of Routine Planner Agent " |};
             inr {| content := Some " Reply of Brutal Honesty Agent " |} ]).
  - reflexivity.
  - reflexivity.
  - reflexivity.
  - reflexivity.
  - intros s; reflexivity.
  - reflexivity.
Defined.

Lemma results_calls_bound (env : Env) (text : string) (imgs : list AgnoImage)
    (t c p h : Agent) (s : State) :
  exists new,
    calls (results env text imgs (Some t) (Some c) (Some p) (Some h) s).2 =
      calls s ++ new
    /\ length new <= 4.
Proof.
  rewrite results_run. cbv zeta.
  destruct (answers env (calls s) _) as [| [e | r1] l].
  { exists []. rewrite app_nil_r. split; [reflexivity | simpl; lia]. }
  { eexists. split; [reflexivity | simpl; lia]. }
  destruct l as [| [e | r2] l];
    [exists []; rewrite app_nil_r; split; [reflexivity | simpl; lia]
    | eexists; split; [reflexivity | simpl; lia] |].
  destruct l as [| [e | r3] l];
    [exists []; rewrite app_nil_r; split; [reflexivity | simpl; lia]
    | eexists; split; [reflexivity | simpl; lia] |].
  destruct l as [| [e | r4] l];
    [exists []; rewrite app_nil_r; split; [reflexivity | simpl; lia]
    | eexists; split; [reflexivity | simpl; lia]
    | eexists; split; [reflexivity | simpl; lia]].
Qed.

Lemma recovery_plan_calls_bound (env : Env) (inp : Inputs) (s : State) :
  exists new,
    calls (recovery_plan env inp s).2 = calls s ++ new /\ length new <= 4.
Proof.
  destruct (Py.truthy (user_input inp) || nonempty (uploaded_files inp))
    eqn:Hin.
  2:{ rewrite (recovery_plan_no_input env inp s Hin).
      exists []. simpl. rewrite app_nil_r. split; [reflexivity | lia]. }
  destruct (build_agents_cases env (in_api_key inp))
    as [(t & c & p & h & Hc & _) | (e & Hc)].
  2:{ rewrite (recovery_plan_raises env inp s e Hin Hc).
      exists []. simpl. rewrite app_nil_r. split; [reflexivity | lia]. }
  destruct (process_images_spec env (uploaded_files inp) s)
    as (imgs & s1 & Hp & (_ & Hcalls & _) & _).
  rewrite (recovery_plan_constructed env inp s s1 t c p h imgs Hin Hc Hp).
  destruct (results_calls_bound env (user_input inp) imgs t c p h s1)
    as (new & Hnew & Hlen).
  exists new. split; [| exact Hlen]. rewrite <- Hcalls, <- Hnew.
  destruct (results _ _ _ _ _ _ _ s1) as [[[] | e |] s2]; reflexivity.
Qed.

Lemma chat_section_calls_bound (env : Env) (inp : Inputs)
    (th : PyVar (option Agent)) (s : State) :
  exists new,
    calls (chat_section env inp th s).2 = calls s ++ new
    /\ length new <= 1
    /\ (th = Unbound -> new = []).
Proof.
  rewrite chat_section_run. simpl (_, _).2.
  destruct (submitted inp) as [text |].
  2:{ exists []. simpl. rewrite !app_nil_r.
      split; [reflexivity | split; [simpl; lia | reflexivity]]. }
  unfold chat_turn.
  destruct th as [| [a |]].
  - exists []. simpl. rewrite !app_nil_r.
    split; [reflexivity | split; [simpl; lia | reflexivity]].
  - destruct (run_result env (calls s) _) as [e | [[reply |]]];
      (eexists; simpl; rewrite app_nil_r;
       split; [reflexivity | split; [simpl; lia | discriminate]]).
  - exists []. simpl. rewrite !app_nil_r.
    split; [reflexivity | split; [simpl; lia | discriminate]].
Qed.

(** X14.  A run calls the provider at most five times, the four invocations
    of the plan and one for the chat, and not at all when the button was
    not clicked in it. *)
Theorem run_makes_at_most_five_calls (env : Env) (inp : Inputs) (s : State) :
  exists new,
    calls (run_script env inp s).2 = calls s ++ new
    /\ length new <= (if button inp then 5 else 0).
Proof.
  unfold run_script. rewrite script_run.
  destruct (Py.truthy (in_api_key inp)).
  2:{ exists []. simpl. rewrite !app_nil_r.
      split; [reflexivity | destruct (button inp); simpl; lia]. }
  cbv zeta. set (s1 := extend (fresh_page s) [] _).
  assert (Hs1 : calls s1 = calls s) by (subst s1; simpl; apply app_nil_r).
  destruct (button inp).
  - destruct (recovery_plan_calls_bound env inp s1) as (new & Hnew & Hlen).
    rewrite Hs1 in Hnew.
    destruct (recovery_plan env inp s1) as [[t | e |] s2]; simpl in Hnew.
    + destruct (chat_section_calls_bound env inp (Bound t) s2)
        as (new' & Hnew' & Hlen' & _).
      exists (new ++ new'). rewrite Hnew', Hnew, <- app_assoc.
      split; [reflexivity | rewrite length_app; lia].
    + exists new. split; [exact Hnew | lia].
    + exists new. split; [exact Hnew | lia].
  - destruct (chat_section_calls_bound env inp Unbound s1)
      as (new & Hnew & _ & Hnone).
    exists []. rewrite Hnew, (Hnone eq_refl), Hs1.
    split; [reflexivity | simpl; lia].
Qed.

(** X15.  A click with images and no text is accepted: with constructed
    agents and invocations that return, the four personas are invoked, each
    with its instruction line followed by an empty text, and with the staged
    attachments. *)
Theorem images_alone_are_submitted (env : Env) (inp : Inputs) (s : State)
    (t c p h : Agent) (imgs : list AgnoImage) (r1 r2 r3 r4 : RunResponse) :
  user_input inp = EmptyString ->
  nonempty (uploaded_files inp) = true ->
  constructed env (in_api_key inp) (Some t, Some c, Some p, Some h) ->
  (process_images env (uploaded_files inp) s).1 = Ret imgs ->
  answers env (calls s) (plan_calls EmptyString imgs t c p h) =
    [inr r1; inr r2; inr r3; inr r4] ->
  let r := recovery_plan env inp s in
  r.1 = Ret (Some t)
  /\ calls r.2 =
     calls s ++
     [ {| callee := t; message := "Analyze and comfort:" +:+ Py.nl;
          images := Some imgs |};
       {| callee := c; message := "Help write unsent messages:" +:+ Py.nl;
          images := Some imgs |};
       {| callee := p; message := "Design a 7-day challenge:" +:+ Py.nl;
          images := Some imgs |};
       {| callee := h; message := "Give me the truth:" +:+ Py.nl;
          images := Some imgs |} ].
Proof.
  intros Htext Hfiles Hc Himgs Hans. cbv zeta.
  destruct (process_images_spec env (uploaded_files inp) s)
    as (imgs' & s1 & Hp & (_ & Hcalls & _) & _).
  rewrite Hp in Himgs. simpl in Himgs. injection Himgs as ->.
  assert (Hin : Py.truthy (user_input inp) || nonempty (uploaded_files inp)
                = true) by (rewrite Hfiles; apply orb_true_r).
  rewrite (recovery_plan_constructed env inp s s1 t c p h imgs Hin Hc Hp).
  rewrite results_run, Htext. cbv zeta. rewrite Hcalls, Hans. simpl.
  rewrite Hcalls. split; reflexivity.
Qed.

(** A click with one image and no text. *)
Lemma images_alone_demo :
  let env := Demo.env None in
  let inp :=
    {| in_api_key := "k"; user_input := EmptyString;
       uploaded_files := [Demo.photo]; button := true;
       user_chat_input := None |} in
  let imgs := [attachment env Demo.photo] in
  let r := recovery_plan env inp Demo.start in
  r.1 = Ret (Some Demo.therapist)
  /\ calls r.2 =
     calls Demo.start ++
     [ {| callee := Demo.therapist;
          message := "Analyze and comfort:" +:+ Py.nl;
          images := Some imgs |};
       {| callee := Demo.closure;
          message := "Help write unsent messages:" +:+ Py.nl;
          images := Some imgs |};
       {| callee := Demo.planner;
          message := "Design a 7-day challenge:" +:+ Py.nl;
          images := Some imgs |};
       {| callee := Demo.honest; message := "Give me the truth:" +:+ Py.nl;
          images := Some imgs |} ].
Proof.
  apply (images_alone_are_submitted (Demo.env None)
           {| in_api_key := "k"; user_input := EmptyString;
              uploaded_files := [Demo.photo]; button := true;
              user_chat_input := None |}
           Demo.start Demo.therapist Demo.closure Demo.planner Demo.honest
           [attachment (Demo.env None) Demo.photo]
           {| content := Some " Reply of Therapist Agent " |}
           {| content := Some " Reply of Closure Agent " |}
           {| content := Some " Reply of Routine Planner Agent " |}
           {| content := Some " Reply of Brutal Honesty Agent " |}).
  - reflexivity.
  - reflexivity.
  - intros s; reflexivity.
  - reflexivity.
  - reflexivity.
Defined.
